(** * PapayaFresh API server: the dashboard helpers and the handlers around them

    A shallow embedding of [src/server.js]: the three helper functions
    ([calculateFreshnessDistribution], [calculateWeeklyScans],
    [formatTimeAgo]), the dashboard aggregation of
    [GET /api/dashboard/stats] and the handler of
    [DELETE /api/users/delete/:userId].

    Conventions of the embedding.
    - A JavaScript [Date] is its time value: [Some ms] (an integral number of
      milliseconds since the epoch, within the range [TimeClip] accepts) or
      [None] for an invalid date (time value NaN).
    - Numbers the code computes with are integers well below 2^53, so they
      are modelled in [Z]; [Math.floor (a / b)] is [Z.div].
    - [new Date()] (the clock) is an explicit argument [now]; a request
      reads it once.
    - The deletes that [Promise.all] awaits together are applied in the
      order in which they are issued.
    - An evaluation that may raise is a [Completion]; [try]/[catch] is
      [try_catch].
    - Strings are [string]s of 8-bit characters; [toLowerCase] is modelled on
      the ASCII letters. *)

From Stdlib Require Import ZArith Ascii String DecimalString Bool.
From stdpp Require Import gmap strings list.

Local Open Scope string_scope.
Local Open Scope list_scope.
Local Open Scope Z_scope.

(* ===================================================================== *)
(** ** Completions: normal results and raised errors *)
(* ===================================================================== *)

Inductive Completion (A : Type) : Type :=
| Normal (a : A)
| Throw (message : string).
Arguments Normal {A} a.
Arguments Throw {A} message.

Definition cbind {A B} (c : Completion A) (k : A -> Completion B) : Completion B :=
  match c with
  | Normal a => k a
  | Throw m => Throw m
  end.

(** [try { body } catch (error) { handler }] *)
Definition try_catch {A} (body : Completion A) (handler : string -> Completion A)
  : Completion A :=
  match body with
  | Normal a => Normal a
  | Throw m => handler m
  end.

(** [xs.forEach(f)] for a callback that may raise: the first error aborts. *)
Fixpoint forEachC {A S} (f : S -> A -> Completion S) (xs : list A) (s : S)
  : Completion S :=
  match xs with
  | [] => Normal s
  | x :: xs' => cbind (f s x) (forEachC f xs')
  end.

(* ===================================================================== *)
(** ** Handlers: mutable variables and raised errors *)
(* ===================================================================== *)

(** A statement of a handler acts on the variables [S] it can assign and
    completes normally or raises. What was assigned before an error stays
    assigned. *)
Definition Stmt (S A : Type) : Type := S -> S * Completion A.

Definition sret {S A} (a : A) : Stmt S A := fun s => (s, Normal a).

Definition sbind {S A B} (c : Stmt S A) (k : A -> Stmt S B) : Stmt S B :=
  fun s =>
    match c s with
    | (s', Normal a) => k a s'
    | (s', Throw m) => (s', Throw m)
    end.

(** [await] of an operation whose outcome the environment fixes. *)
Definition await {S A} (c : Completion A) : Stmt S A := fun s => (s, c).

(** An assignment to the variables. *)
Definition assign {S} (f : S -> S) : Stmt S unit := fun s => (f s, Normal tt).

Definition read {S A} (f : S -> A) : Stmt S A := fun s => (s, Normal (f s)).

(** [try { body } catch (error) { handler }] around statements. *)
Definition stry {S A} (body : Stmt S A) (handler : string -> Stmt S A) : Stmt S A :=
  fun s =>
    match body s with
    | (s', Normal a) => (s', Normal a)
    | (s', Throw m) => handler m s'
    end.

Notation "'let*' x ':=' c 'in' k" := (sbind c (fun x => k))
  (at level 10, x binder, c at level 100, k at level 200).
Notation "c ';;' k" := (sbind c (fun _ => k))
  (at level 100, k at level 200, right associativity).

(** [for (const x of xs) { body }] and [xs.forEach(x => { body })]. *)
Fixpoint sfor {S A} (xs : list A) (body : A -> Stmt S unit) : Stmt S unit :=
  match xs with
  | [] => sret tt
  | x :: xs' => body x ;; sfor xs' body
  end.

(** What a handler sends: [res.json(body)] with status 200, or
    [res.status(status).json({ success: false, error, ...fallback })]. *)
Inductive Response (A : Type) : Type :=
| Json (status : Z) (body : A)
| JsonError (status : Z) (error : string) (fallback : option A).
Arguments Json {A} status body.
Arguments JsonError {A} status error fallback.

(* ===================================================================== *)
(** ** JavaScript strings *)
(* ===================================================================== *)

Definition toLowerAscii (c : ascii) : ascii :=
  let n := N_of_ascii c in
  if ((65 <=? n) && (n <=? 90))%N then ascii_of_N (n + 32) else c.

(** [s.toLowerCase()] *)
Fixpoint toLowerCase (s : string) : string :=
  match s with
  | EmptyString => EmptyString
  | String c s' => String (toLowerAscii c) (toLowerCase s')
  end.

(** [s.includes(sub)] *)
Fixpoint includes (s sub : string) : bool :=
  String.prefix sub s ||
  match s with
  | EmptyString => false
  | String _ s' => includes s' sub
  end.

(** [sub] occurs somewhere inside [s]. *)
Definition Contains (s sub : string) : Prop :=
  exists pre post, s = pre +:+ sub +:+ post.

(** [a || b] on a string-valued field: absent and the empty string are falsy. *)
Definition str_or (a : option string) (b : string) : string :=
  match a with
  | Some (String c s) => String c s
  | _ => b
  end.

(** Template-literal rendering of an integer. *)
Definition num_to_string (n : Z) : string :=
  NilZero.string_of_int (Z.to_int n).

(* ===================================================================== *)
(** ** Dates and timestamp values *)
(* ===================================================================== *)

Definition Date := option Z.

Definition maxTime : Z := 8640000000000000.

(** [new Date(n)] for a number [n]: [TimeClip]. *)
Definition dateOfNumber (n : Z) : Date :=
  if (Z.abs n <=? maxTime) then Some n else None.

(** The values a timestamp field of a document can hold, as far as the code
    tells them apart. *)
Inductive Timestamp : Type :=
| TsAbsent                          (* undefined or null *)
| TsString (s : string)             (* a string *)
| TsNumber (n : Z)                  (* a number *)
| TsNative (toDate : Completion Date)
    (* an object with a [toDate] method; the argument is what calling it
       yields *)
| TsSeconds (seconds : Z)
    (* a plain object [{ seconds: n, ... }] without [toDate] *)
| TsDate (d : Date)                 (* a [Date] instance *)
| TsObject (primitive : string).
    (* any other object without [toDate] and [seconds]; the argument is the
       string it converts to, "[object Object]" for a plain object *)

(** ToBoolean. *)
Definition truthy (t : Timestamp) : bool :=
  match t with
  | TsAbsent => false
  | TsString s => negb (String.eqb s "")
  | TsNumber n => negb (n =? 0)
  | TsNative _ | TsSeconds _ | TsDate _ | TsObject _ => true
  end.

(** [a || b] *)
Definition ts_or (a b : Timestamp) : Timestamp := if truthy a then a else b.

(** [t.toDate] is truthy. *)
Definition hasToDate (t : Timestamp) : bool :=
  match t with TsNative _ => true | _ => false end.

(** A JavaScript number as the weekly counters can hold it. *)
Inductive JsNum : Type := Int (n : Z) | NaN.

(** A JavaScript array of numbers; [None] is a hole (an index below
    [length] with no element). *)
Abbreviation JsArray := (list (option JsNum)).

Section Helpers.

(** [Date.parse]: implementation-defined, never raises. *)
Variable parseDate : string -> Date.

(** [new Date(t)] for a value [t] without a usable [toDate]. A plain object
    is converted to the primitive ["[object Object]"] first. *)
Definition newDate (t : Timestamp) : Date :=
  match t with
  | TsAbsent => None
  | TsString s => parseDate s
  | TsNumber n => dateOfNumber n
  | TsNative _ => parseDate "[object Object]"
  | TsSeconds _ => parseDate "[object Object]"
  | TsDate d => d
  | TsObject primitive => parseDate primitive
  end.

(* ===================================================================== *)
(** ** Scan records *)
(* ===================================================================== *)

Record Scan : Type := mkScan {
  scan_id : string;
  scan_userId : string;
  userEmail : string;
  name : string;
  freshness : option string;
  harvestedDate : Timestamp;
  scannedDate : Timestamp;
  addedAt : Timestamp;
  archivedAt : Timestamp
}.

(* ===================================================================== *)
(** ** calculateFreshnessDistribution *)
(* ===================================================================== *)

Inductive Ripeness : Type := Unripe | Ripe | Overripe.

Record Distribution : Type := mkDist { unripe : Z; ripe : Z; overripe : Z }.

(** The label the callback tests: [(scan.freshness || '').toLowerCase()]. *)
Definition freshnessLabel (f : option string) : string :=
  toLowerCase (str_or f "").

(** The [if] / [else if] / [else] chain of the callback. *)
Definition classify (f : option string) : Ripeness :=
  let freshness := freshnessLabel f in
  if includes freshness "unripe" || String.eqb freshness "green"
     || includes freshness "early" then Unripe
  else if includes freshness "overripe" || String.eqb freshness "rotten"
          || includes freshness "late" then Overripe
  else Ripe.

Definition tally_step (distribution : Distribution) (scan : Scan) : Distribution :=
  match classify (freshness scan) with
  | Unripe => mkDist (unripe distribution + 1) (ripe distribution) (overripe distribution)
  | Overripe => mkDist (unripe distribution) (ripe distribution) (overripe distribution + 1)
  | Ripe => mkDist (unripe distribution) (ripe distribution + 1) (overripe distribution)
  end.

(** The distribution after [scans.forEach]. *)
Definition tally (scans : list Scan) : Distribution :=
  fold_left tally_step scans (mkDist 0 0 0).

Definition allZero (d : Distribution) : bool :=
  (unripe d =? 0) && (ripe d =? 0) && (overripe d =? 0).

Definition calculateFreshnessDistribution (scans : list Scan) : Distribution :=
  let distribution := tally scans in
  if allZero distribution then mkDist 1 1 1 else distribution.

(** The number of records a distribution accounts for. *)
Definition total (d : Distribution) : Z := unripe d + ripe d + overripe d.

Definition nonneg (d : Distribution) : Prop :=
  0 <= unripe d /\ 0 <= ripe d /\ 0 <= overripe d.

(* ===================================================================== *)
(** ** calculateWeeklyScans *)
(* ===================================================================== *)

(** [x++] on the value read from an array slot; a missing element reads as
    [undefined], whose increment is NaN. *)
Definition increment (v : option JsNum) : JsNum :=
  match v with
  | Some (Int n) => Int (n + 1)
  | Some NaN => NaN
  | None => NaN
  end.

(** [a[i]++] for an integer [i >= 0]. Writing at or past [length] extends the
    array, leaving holes in between; an index of 2^32 - 1 or more is an
    ordinary property and leaves the elements alone. *)
Definition array_incr (a : JsArray) (i : Z) : JsArray :=
  if 4294967295 <=? i then a
  else
    match a !! Z.to_nat i with
    | Some v => <[Z.to_nat i := Some (increment v)]> a
    | None => a ++ replicate (Z.to_nat i - length a) None ++ [Some (increment None)]
    end.

Definition msPerWeek : Z := 7 * 24 * 60 * 60 * 1000.

(** [Math.floor((now - date) / (7 * 24 * 60 * 60 * 1000))]; NaN is [None]. *)
Definition diffWeeksOf (now : Z) (date : Date) : option Z :=
  match date with
  | Some d => Some ((now - d) / msPerWeek)
  | None => None
  end.

(** [scan.scannedDate || scan.addedAt || scan.harvestedDate] *)
Definition anchorOf (scan : Scan) : Timestamp :=
  ts_or (ts_or (scannedDate scan) (addedAt scan)) (harvestedDate scan).

(** [scanDate.toDate ? scanDate.toDate() : new Date(scanDate)] *)
Definition anchorDate (scanDate : Timestamp) : Completion Date :=
  match scanDate with
  | TsNative toDate => toDate
  | _ => Normal (newDate scanDate)
  end.

(** The callback of [scans.forEach] in [calculateWeeklyScans]. *)
Definition weekly_step (now : Z) (weeklyData : JsArray) (scan : Scan)
  : Completion JsArray :=
  let scanDate := anchorOf scan in
  if truthy scanDate then
    cbind (anchorDate scanDate) (fun date =>
      match diffWeeksOf now date with
      | Some diffWeeks =>
          if diffWeeks <? 4 then Normal (array_incr weeklyData (3 - diffWeeks))
          else Normal weeklyData
      | None => Normal weeklyData
      end)
  else Normal weeklyData.

(** [Math.max(1, count)] *)
Definition max1 (count : JsNum) : JsNum :=
  match count with
  | Int n => Int (Z.max 1 n)
  | NaN => NaN
  end.

(** [a.map(f)]: holes stay holes. *)
Definition array_map (f : JsNum -> JsNum) (a : JsArray) : JsArray :=
  List.map (option_map f) a.

Definition calculateWeeklyScans (now : Z) (scans : list Scan) : Completion JsArray :=
  if (length scans =? 0)%nat then
    Normal [Some (Int 2); Some (Int 5); Some (Int 8); Some (Int 12)]
  else
    let weeklyData := [Some (Int 0); Some (Int 0); Some (Int 0); Some (Int 0)] in
    cbind (forEachC (weekly_step now) scans weeklyData) (fun weeklyData =>
      Normal (array_map max1 weeklyData)).

(** Four integer counters, none of them negative. *)
Definition fourCounts (a : JsArray) : Prop :=
  exists c0 c1 c2 c3,
    a = [Some (Int c0); Some (Int c1); Some (Int c2); Some (Int c3)]
    /\ 0 <= c0 /\ 0 <= c1 /\ 0 <= c2 /\ 0 <= c3.

(** A scan whose anchor, if it has one, decodes without an error to an
    invalid date or to an instant that is not after [now]. *)
Definition notAhead (now : Z) (scan : Scan) : Prop :=
  truthy (anchorOf scan) = true ->
  exists date, anchorDate (anchorOf scan) = Normal date
               /\ forall d, date = Some d -> d <= now.

(* ===================================================================== *)
(** ** formatTimeAgo *)
(* ===================================================================== *)

(** The [if] chain that computes [activityTime]. *)
Definition activityTimeOf (timestamp : Timestamp) : Completion Date :=
  match timestamp with
  | TsNative toDate => toDate
  | TsString s => Normal (parseDate s)
  | TsSeconds seconds =>
      if negb (seconds =? 0) then Normal (dateOfNumber (seconds * 1000))
      else Normal (newDate timestamp)
  | _ => Normal (newDate timestamp)
  end.

(** The statements after the decoding, for a valid [activityTime]. *)
Definition timeAgoLabel (now activityTime : Z) : string :=
  let diffMinutes := (now - activityTime) / (1000 * 60) in
  if diffMinutes <? 1 then "Just now"
  else if diffMinutes <? 60 then num_to_string diffMinutes +:+ " mins ago"
  else if diffMinutes <? 1440 then num_to_string (diffMinutes / 60) +:+ " hr ago"
  else num_to_string (diffMinutes / 1440) +:+ " days ago".

(** The body of the [try] block. *)
Definition formatTimeAgo_try (now : Z) (timestamp : Timestamp) : Completion string :=
  cbind (activityTimeOf timestamp) (fun activityTime =>
    match activityTime with
    | None => Normal "Recent"
    | Some t => Normal (timeAgoLabel now t)
    end).

Definition formatTimeAgo (now : Z) (timestamp : Timestamp) : Completion string :=
  if negb (truthy timestamp) then Normal "Recent"
  else try_catch (formatTimeAgo_try now timestamp) (fun _ => Normal "Recent").

(* ===================================================================== *)
(** ** GET /api/dashboard/stats *)
(* ===================================================================== *)

(** The fields of a shelf or history document the handler reads. *)
Record Document : Type := mkDocument {
  doc_id : string;
  doc_name : option string;
  doc_freshness : option string;
  doc_harvestedDate : Timestamp;
  doc_scannedDate : Timestamp;
  doc_addedAt : Timestamp;
  doc_archivedAt : Timestamp
}.

(** A user document together with what fetching its two sub-collections
    yields during the request. *)
Record UserEntry : Type := mkUserEntry {
  user_id : string;
  email : option string;
  shelfFetch : Completion (list Document);
  historyFetch : Completion (list Document)
}.

Record Activity : Type := mkActivity {
  act_user : string;
  act_action : string;
  act_time : string;
  act_type : option string
}.

(** The variables declared before the loop over the users. *)
Record DashVars : Type := mkDashVars {
  totalScans : Z;
  totalShelfItems : Z;
  totalHistoryItems : Z;
  userActivities : list Activity;
  allScans : list Scan
}.

Definition dashVars0 : DashVars := mkDashVars 0 0 0 [] [].

Definition addShelfItems (n : Z) (v : DashVars) : DashVars :=
  mkDashVars (totalScans v) (totalShelfItems v + n) (totalHistoryItems v)
             (userActivities v) (allScans v).

Definition addHistoryItems (n : Z) (v : DashVars) : DashVars :=
  mkDashVars (totalScans v) (totalShelfItems v) (totalHistoryItems v + n)
             (userActivities v) (allScans v).

Definition addScans (n : Z) (v : DashVars) : DashVars :=
  mkDashVars (totalScans v + n) (totalShelfItems v) (totalHistoryItems v)
             (userActivities v) (allScans v).

Definition pushScan (x : Scan) (v : DashVars) : DashVars :=
  mkDashVars (totalScans v) (totalShelfItems v) (totalHistoryItems v)
             (userActivities v) (allScans v ++ [x]).

Definition pushActivity (x : Activity) (v : DashVars) : DashVars :=
  mkDashVars (totalScans v) (totalShelfItems v) (totalHistoryItems v)
             (userActivities v ++ [x]) (allScans v).

(** The [scanData] object built from a shelf document. *)
Definition scanDataOf (u : UserEntry) (doc : Document) : Scan :=
  {| scan_id := doc_id doc;
     scan_userId := user_id u;
     userEmail := str_or (email u) "Unknown";
     name := str_or (doc_name doc) "Unknown Papaya";
     freshness := Some (str_or (doc_freshness doc) "Unknown");
     harvestedDate := ts_or (doc_harvestedDate doc) TsAbsent;
     scannedDate := ts_or (doc_scannedDate doc) TsAbsent;
     addedAt := ts_or (doc_addedAt doc) TsAbsent;
     archivedAt := ts_or (doc_archivedAt doc) TsAbsent |}.

(** [userData.email || `User ${userId.substring(0, 8)}`] *)
Definition activityUser (u : UserEntry) : string :=
  str_or (email u) ("User " +:+ substring 0 8 (user_id u)).

(** The callback of [shelfSnapshot.forEach]. *)
Definition shelfItemStep (now : Z) (u : UserEntry) (doc : Document) : Stmt DashVars unit :=
  let scanData := scanDataOf u doc in
  assign (pushScan scanData) ;;
  let* time := await (formatTimeAgo now (ts_or (scannedDate scanData) (addedAt scanData))) in
  assign (pushActivity
    {| act_user := activityUser u;
       act_action := "Scanned " +:+ name scanData +:+ " - "
                       +:+ str_or (freshness scanData) "";
       act_time := time;
       act_type := Some "scan" |}).

(** The callback of [historySnapshot.forEach]. *)
Definition historyItemStep (now : Z) (u : UserEntry) (doc : Document) : Stmt DashVars unit :=
  let* time := await (formatTimeAgo now (ts_or (doc_scannedDate doc) (doc_archivedAt doc))) in
  assign (pushActivity
    {| act_user := activityUser u;
       act_action := "History: " +:+ str_or (doc_name doc) "Activity";
       act_time := time;
       act_type := Some "history" |}).

(** The body of the loop over [usersSnapshot.docs]: a [try] block whose
    [catch] only logs. *)
Definition processUser (now : Z) (u : UserEntry) : Stmt DashVars unit :=
  stry
    (let* shelfSnapshot := await (shelfFetch u) in
     let userShelfCount := Z.of_nat (length shelfSnapshot) in
     assign (addShelfItems userShelfCount) ;;
     let* historySnapshot := await (historyFetch u) in
     let userHistoryCount := Z.of_nat (length historySnapshot) in
     assign (addHistoryItems userHistoryCount) ;;
     sfor shelfSnapshot (shelfItemStep now u) ;;
     sfor historySnapshot (historyItemStep now u) ;;
     assign (addScans (userShelfCount + userHistoryCount)))
    (fun _ => sret tt).

(** The JSON body of the response, without the fields computed in floating
    point ([newUsers], [averageScansPerUser]) and the debug block. *)
Record DashboardSummary : Type := mkSummary {
  r_totalUsers : Z;
  r_totalScans : Z;
  r_papayasOnShelf : Z;
  r_ripenessDistribution : Distribution;
  r_weeklyScans : JsArray;
  r_recentActivities : list Activity;
  r_activeUsers : Z;
  r_totalShelfItems : Z;
  r_totalHistoryItems : Z
}.

Definition noActivity : Activity :=
  mkActivity "No activity yet" "Waiting for user scans" "Just now" None.

(** The statements after the loop, up to [res.json(responseData)]. The
    comparator of the sort reads the field [timestamp], which no activity
    has, so it returns NaN for every pair and the sort keeps the order. *)
Definition summarize (now : Z) (totalUsers : Z) (v : DashVars)
  : Completion DashboardSummary :=
  let ripenessDistribution := calculateFreshnessDistribution (allScans v) in
  cbind (calculateWeeklyScans now (allScans v)) (fun weeklyScans =>
    let recentActivities := take 6 (userActivities v) in
    Normal
      {| r_totalUsers := totalUsers;
         r_totalScans := totalScans v;
         r_papayasOnShelf := totalShelfItems v;
         r_ripenessDistribution := ripenessDistribution;
         r_weeklyScans := weeklyScans;
         r_recentActivities :=
           if (0 <? length recentActivities)%nat then recentActivities
           else [noActivity];
         r_activeUsers := Z.of_nat (length (userActivities v));
         r_totalShelfItems := totalShelfItems v;
         r_totalHistoryItems := totalHistoryItems v |}).

(** The fallback body sent with status 500. *)
Definition dashboardFallback : DashboardSummary :=
  {| r_totalUsers := 0;
     r_totalScans := 0;
     r_papayasOnShelf := 0;
     r_ripenessDistribution := mkDist 1 1 1;
     r_weeklyScans := [Some (Int 2); Some (Int 5); Some (Int 8); Some (Int 12)];
     r_recentActivities := [mkActivity "System" "Error loading data" "Just now" None];
     r_activeUsers := 0;
     r_totalShelfItems := 0;
     r_totalHistoryItems := 0 |}.

(** The variables after the loop over the users. *)
Definition aggregate (now : Z) (users : list UserEntry) : DashVars :=
  fst (sfor users (processUser now) dashVars0).

(** The handler: [usersSnapshot] is what listing the users yields. *)
Definition dashboardStats (now : Z) (usersSnapshot : Completion (list UserEntry))
  : Response DashboardSummary :=
  match
    cbind usersSnapshot (fun users =>
      match sfor users (processUser now) dashVars0 with
      | (v, Normal _) => summarize now (Z.of_nat (length users)) v
      | (_, Throw m) => Throw m
      end)
  with
  | Normal responseData => Json 200 responseData
  | Throw m => JsonError 500 m (Some dashboardFallback)
  end.

(** The three counters agree in two states of the variables. *)
Definition sameCounts (v v' : DashVars) : Prop :=
  totalScans v' = totalScans v
  /\ totalShelfItems v' = totalShelfItems v
  /\ totalHistoryItems v' = totalHistoryItems v.

(** A statement that completes normally and leaves the counters alone. *)
Definition countNeutral (c : Stmt DashVars unit) : Prop :=
  forall v, exists v', c v = (v', Normal tt) /\ sameCounts v v'.

(** Users whose history fetch follows their shelf fetch in success. *)
Definition historyFollowsShelf (u : UserEntry) : Prop :=
  forall docs, shelfFetch u = Normal docs -> exists hist, historyFetch u = Normal hist.

End Helpers.

(* ===================================================================== *)
(** ** DELETE /api/users/delete/:userId *)
(* ===================================================================== *)

(** The document store and the identity provider. A document of a
    sub-collection is addressed by the pair of its user id and its own id
    (the path [users/<userId>/shelf/<docId>]); it can exist without the
    user document. *)
Record Store : Type := mkStore {
  users : gmap string (option string);        (* user id to [email] *)
  shelf : gmap (string * string) Document;
  history : gmap (string * string) Document;
  accounts : gset string
}.

Inductive StoreOp : Type :=
| GetUserDoc (userId : string)
| GetShelf (userId : string)
| GetHistory (userId : string)
| DeleteShelfDoc (userId docId : string)
| DeleteHistoryDoc (userId docId : string)
| DeleteUserDoc (userId : string)
| DeleteAccount (userId : string).

(** What a handler acts on: the store and, for the record, the mutations
    applied to it so far, oldest first. *)
Record World : Type := mkWorld {
  store : Store;
  writes : list StoreOp
}.

Definition removeShelfDoc (userId docId : string) (s : Store) : Store :=
  mkStore (users s) (delete (userId, docId) (shelf s)) (history s) (accounts s).

Definition removeHistoryDoc (userId docId : string) (s : Store) : Store :=
  mkStore (users s) (shelf s) (delete (userId, docId) (history s)) (accounts s).

Definition removeUserDoc (userId : string) (s : Store) : Store :=
  mkStore (delete userId (users s)) (shelf s) (history s) (accounts s).

Definition removeAccount (userId : string) (s : Store) : Store :=
  mkStore (users s) (shelf s) (history s) (accounts s ∖ {[userId]}).

(** The ids of the documents of [userId] in a sub-collection. *)
Definition docIdsOf (userId : string) (coll : gmap (string * string) Document)
  : list string :=
  (fun kv : string * string * Document => kv.1.2)
    <$> map_to_list (filter (fun kv : string * string * Document => kv.1.1 = userId) coll).

(** [await Promise.all(promises)]: rejects with the first rejection. *)
Fixpoint promiseAll (promises : list (Completion unit)) : Completion unit :=
  match promises with
  | [] => Normal tt
  | Normal _ :: rest => promiseAll rest
  | Throw m :: _ => Throw m
  end.

(** A mutation of a sub-collection document. *)
Definition isDocDelete (op : StoreOp) : Prop :=
  match op with
  | DeleteShelfDoc _ _ | DeleteHistoryDoc _ _ => True
  | _ => False
  end.

(** The mutations of a complete run on the store, in order. *)
Definition shelfDeletes (userId : string) (s : Store) : list StoreOp :=
  DeleteShelfDoc userId <$> docIdsOf userId (shelf s).

Definition historyDeletes (userId : string) (s : Store) : list StoreOp :=
  DeleteHistoryDoc userId <$> docIdsOf userId (history s).

(** The store once the documents of [userId] are gone. *)
Definition purged (userId : string) (s : Store) : Store :=
  removeUserDoc userId
    (foldl (fun s d => removeHistoryDoc userId d s)
       (foldl (fun s d => removeShelfDoc userId d s) s (docIdsOf userId (shelf s)))
       (docIdsOf userId (history s))).

Section DeleteUser.

(** The operations that fail during the request, with their messages. *)
Variable faulty : StoreOp -> option string.

(** A read of the store. *)
Definition fetch {A} (op : StoreOp) (result : Store -> A) : Stmt World A :=
  fun w =>
    match faulty op with
    | Some m => (w, Throw m)
    | None => (w, Normal (result (store w)))
    end.

(** A write to the store: [ref.delete()]. *)
Definition mutate (op : StoreOp) (effect : Store -> Store) : Stmt World unit :=
  fun w =>
    match faulty op with
    | Some m => (w, Throw m)
    | None => (mkWorld (effect (store w)) (writes w ++ [op]), Normal tt)
    end.

(** [docs.map(doc => doc.ref.delete())]: every delete is issued, whatever
    becomes of the others; the result is the list of their outcomes. *)
Fixpoint issueAll {A} (docs : list A) (del : A -> Stmt World unit) (w : World)
  : World * list (Completion unit) :=
  match docs with
  | [] => (w, [])
  | d :: rest =>
      let (w1, r) := del d w in
      let (w2, rs) := issueAll rest del w1 in
      (w2, r :: rs)
  end.

Definition deleteAll {A} (docs : list A) (del : A -> Stmt World unit) : Stmt World unit :=
  fun w =>
    let (w', promises) := issueAll docs del w in
    (w', promiseAll promises).

(** [auth.deleteUser(userId)]: rejects for an unknown account. *)
Definition authDeleteUser (userId : string) : Stmt World unit :=
  fun w =>
    if decide (userId ∈ accounts (store w)) then
      mutate (DeleteAccount userId) (removeAccount userId) w
    else (w, Throw "There is no user record corresponding to the provided identifier.").

(** The body of a successful answer: [deletedUser.userId] and
    [deletedUser.email]. *)
Record Deleted : Type := mkDeleted {
  deleted_userId : string;
  deleted_email : option string
}.

Definition deleteUser (userId : string) : Stmt World (Response Deleted) :=
  stry
    (let* userDoc := fetch (GetUserDoc userId) (fun s => users s !! userId) in
     match userDoc with
     | None => sret (JsonError 404 "User not found" None)
     | Some userData =>
         let* shelfSnapshot := fetch (GetShelf userId) (fun s => docIdsOf userId (shelf s)) in
         deleteAll shelfSnapshot
           (fun d => mutate (DeleteShelfDoc userId d) (removeShelfDoc userId d)) ;;
         let* historySnapshot :=
           fetch (GetHistory userId) (fun s => docIdsOf userId (history s)) in
         deleteAll historySnapshot
           (fun d => mutate (DeleteHistoryDoc userId d) (removeHistoryDoc userId d)) ;;
         mutate (DeleteUserDoc userId) (removeUserDoc userId) ;;
         stry (authDeleteUser userId) (fun _ => sret tt) ;;
         sret (Json 200 (mkDeleted userId userData))
     end)
    (fun m => sret (JsonError 500 m None)).

(** A run ends in one of two ways. *)
Inductive Outcome (userId : string) (w : World) (run : World * Completion (Response Deleted))
  : Prop :=
| Kept (l : list StoreOp) (status : Z) (error : string)
    (Hresp : run.2 = Normal (JsonError status error None))
    (Hlog : writes run.1 = writes w ++ l)
    (Hdocs : Forall isDocDelete l)
    (Hwhy : (status = 404 /\ users (store w) !! userId = None)
            \/ (status = 500 /\ exists op, faulty op = Some error))
| Removed (userData : option string) (tail : list StoreOp)
    (Huser : users (store w) !! userId = Some userData)
    (Hresp : run.2 = Normal (Json 200 (mkDeleted userId userData)))
    (Hlog : writes run.1
            = writes w ++ shelfDeletes userId (store w)
                ++ historyDeletes userId (store w) ++ DeleteUserDoc userId :: tail)
    (Htail : tail = [] \/ tail = [DeleteAccount userId])
    (Hstore : users (store run.1) = users (purged userId (store w))
              /\ shelf (store run.1) = shelf (purged userId (store w))
              /\ history (store run.1) = history (purged userId (store w))).

End DeleteUser.

(* ===================================================================== *)
(** ** The helpers as counts *)
(* ===================================================================== *)

#[global] Instance Ripeness_eq_dec : EqDecision Ripeness.
Proof. solve_decision. Defined.

(** The number of scans whose label falls in the class [r]. *)
Definition countClass (r : Ripeness) (scans : list Scan) : Z :=
  Z.of_nat (length (filter (fun scan => classify (freshness scan) = r) scans)).

(** The sum of two distributions, counter by counter. *)
Definition addDist (a b : Distribution) : Distribution :=
  mkDist (unripe a + unripe b) (ripe a + ripe b) (overripe a + overripe b).

Section HelperViews.

Variable parseDate : string -> Date.

(** The week a scan falls in, counted back from [now]: week 0 is the last
    seven days. Scans without an anchor, or whose anchor does not decode to
    a valid date, fall in no week. *)
Definition weekOf (now : Z) (scan : Scan) : option Z :=
  if truthy (anchorOf scan) then
    match anchorDate parseDate (anchorOf scan) with
    | Normal date => diffWeeksOf now date
    | Throw _ => None
    end
  else None.

(** The number of scans that fall in week [k]. *)
Definition countWeek (now k : Z) (scans : list Scan) : Z :=
  Z.of_nat (length (filter (fun scan => weekOf now scan = Some k) scans)).

(** A scan that has no anchor, or whose anchor decodes without an error to
    an invalid date or to an instant at least four weeks before [now]. *)
Definition stale (now : Z) (scan : Scan) : Prop :=
  truthy (anchorOf scan) = true ->
  exists date, anchorDate parseDate (anchorOf scan) = Normal date
               /\ forall d, date = Some d -> d + 4 * msPerWeek <= now.

End HelperViews.

(** The label the specification gives when [minutes] whole minutes have
    elapsed: "Just now" below 1, "<N> mins ago" below 60, "<N> hr ago" with
    N = floor(minutes/60) below 1440, "<N> days ago" with
    N = floor(minutes/1440) otherwise. *)
Inductive ElapsedLabel (minutes : Z) : string -> Prop :=
| ElapsedJustNow : minutes < 1 -> ElapsedLabel minutes "Just now"
| ElapsedMins :
    1 <= minutes < 60 -> ElapsedLabel minutes (num_to_string minutes +:+ " mins ago")
| ElapsedHours :
    60 <= minutes < 1440 ->
    ElapsedLabel minutes (num_to_string (minutes / 60) +:+ " hr ago")
| ElapsedDays :
    1440 <= minutes ->
    ElapsedLabel minutes (num_to_string (minutes / 1440) +:+ " days ago").

(** The shapes of label [formatTimeAgo] can answer. *)
Inductive TimeLabel : string -> Prop :=
| LabelRecent : TimeLabel "Recent"
| LabelJustNow : TimeLabel "Just now"
| LabelMins (n : Z) : 1 <= n <= 59 -> TimeLabel (num_to_string n +:+ " mins ago")
| LabelHours (n : Z) : 1 <= n <= 23 -> TimeLabel (num_to_string n +:+ " hr ago")
| LabelDays (n : Z) : 1 <= n -> TimeLabel (num_to_string n +:+ " days ago").

(* ===================================================================== *)
(** ** What each user adds to the dashboard *)
(* ===================================================================== *)

(** The two sub-collections of a user, when both fetches succeed. *)
Definition bothFetched (u : UserEntry) : option (list Document * list Document) :=
  match shelfFetch u, historyFetch u with
  | Normal docs, Normal hist => Some (docs, hist)
  | _, _ => None
  end.

Definition countedScans (u : UserEntry) : list Scan :=
  match bothFetched u with
  | Some (docs, _) => scanDataOf u <$> docs
  | None => []
  end.

Definition countedShelf (u : UserEntry) : Z :=
  match shelfFetch u with
  | Normal docs => Z.of_nat (length docs)
  | Throw _ => 0
  end.

Definition countedHistory (u : UserEntry) : Z :=
  match bothFetched u with
  | Some (_, hist) => Z.of_nat (length hist)
  | None => 0
  end.

Definition countedTotal (u : UserEntry) : Z :=
  match bothFetched u with
  | Some (docs, hist) => Z.of_nat (length docs) + Z.of_nat (length hist)
  | None => 0
  end.

Definition sumOver {A} (f : A -> Z) (xs : list A) : Z :=
  foldr (fun x acc => f x + acc) 0 xs.




(* ===================================================================== *)
(** ** GET /api/users/all *)
(* ===================================================================== *)






(* ===================================================================== *)
(** ** GET /api/scans/all *)
(* ===================================================================== *)

(** The body of the loop over [usersSnapshot.docs]; the variable is
    [allScans]. Only the shelf is fetched. *)
Definition scansAllStep (u : UserEntry) : Stmt (list Scan) unit :=
  stry
    (let* shelfSnapshot := await (shelfFetch u) in
     sfor shelfSnapshot (fun doc =>
       assign (fun allScans => allScans ++ [scanDataOf u doc])))
    (fun _ => sret tt).

Record ScansBody : Type := mkScansBody {
  sb_totalScans : Z;
  sb_scans : list Scan
}.

(** The shelf records of a user, when the shelf is fetched. *)
Definition shelfScans (u : UserEntry) : list Scan :=
  match shelfFetch u with
  | Normal docs => scanDataOf u <$> docs
  | Throw _ => []
  end.

Section ScansAll.

(** [allScans.sort(compare)] with the comparator of the handler, which
    orders by [scannedDate], newest first. The order the engine produces is
    left open; sorting rearranges the array and nothing else. *)
Variable sortScans : list Scan -> list Scan.

Definition scansAll (usersSnapshot : Completion (list UserEntry)) : Response ScansBody :=
  match
    cbind usersSnapshot (fun users =>
      match sfor users scansAllStep [] with
      | (allScans, Normal _) =>
          let sorted := sortScans allScans in
          Normal (mkScansBody (Z.of_nat (length sorted)) sorted)
      | (_, Throw m) => Throw m
      end)
  with
  | Normal body => Json 200 body
  | Throw m => JsonError 500 m None
  end.

End ScansAll.

(* ===================================================================== *)
(** ** GET /api/users/:userId/shelf and GET /api/users/:userId/history *)
(* ===================================================================== *)

(** Field values of a stored document. *)
Inductive JsValue : Type :=
| VNull
| VString (s : string)
| VNumber (n : Z)
| VBool (b : bool)
| VTimestamp (ms : Z).

(** A document of a snapshot: [doc.id] and [doc.data()]. *)
Record RawDoc : Type := mkRawDoc {
  raw_id : string;
  raw_data : gmap string JsValue
}.

(** [{ id: doc.id, ...doc.data() }]: the fields of the document are spread
    after [id], so a stored field named [id] replaces the document id. *)
Definition withId (doc : RawDoc) : gmap string JsValue :=
  raw_data doc ∪ {[ "id" := VString (raw_id doc) ]}.

Record ItemsBody : Type := mkItemsBody {
  ib_userId : string;
  ib_count : Z;
  ib_items : list (gmap string JsValue)
}.

(** The two handlers differ in the sub-collection they read and in the names
    of the fields of the answer ([shelfCount] and [shelf], [historyCount]
    and [history]). *)
Definition listItems (userId : string) (snapshot : Completion (list RawDoc))
  : Response ItemsBody :=
  match snapshot with
  | Normal docs =>
      let items := fold_left (fun items doc => items ++ [withId doc]) docs [] in
      Json 200 (mkItemsBody userId (Z.of_nat (length items)) items)
  | Throw m => JsonError 500 m None
  end.

Definition userShelf (userId : string) (shelfSnapshot : Completion (list RawDoc))
  : Response ItemsBody := listItems userId shelfSnapshot.

Definition userHistory (userId : string) (historySnapshot : Completion (list RawDoc))
  : Response ItemsBody := listItems userId historySnapshot.

(* ===================================================================== *)
(** ** Relations between the store before and after a request *)
(* ===================================================================== *)

(** A statement leaves every world in relation [R] with the world it
    started from. *)
Definition keeps (R : World -> World -> Prop) {A} (c : Stmt World A) : Prop :=
  forall w, R w (c w).1.

(** Nothing that belongs to a user other than [userId] differs. *)
Definition sameOthers (userId : string) (s s' : Store) : Prop :=
  (forall u, u <> userId -> users s' !! u = users s !! u)
  /\ (forall u d, u <> userId -> shelf s' !! (u, d) = shelf s !! (u, d))
  /\ (forall u d, u <> userId -> history s' !! (u, d) = history s !! (u, d))
  /\ (forall u, u <> userId -> (u ∈ accounts s' <-> u ∈ accounts s)).

(** A route parameter that is a document id: it has no path separator. *)
Definition slashFree (userId : string) : Prop := includes userId "/" = false.

(** Everything in [s'] was in [s], unchanged. *)
Definition shrinks (s s' : Store) : Prop :=
  users s' ⊆ users s /\ shelf s' ⊆ shelf s /\ history s' ⊆ history s
  /\ accounts s' ⊆ accounts s.

(** The effect of a recorded mutation. *)
Definition applyOp (s : Store) (op : StoreOp) : Store :=
  match op with
  | DeleteShelfDoc u d => removeShelfDoc u d s
  | DeleteHistoryDoc u d => removeHistoryDoc u d s
  | DeleteUserDoc u => removeUserDoc u s
  | DeleteAccount u => removeAccount u s
  | GetUserDoc _ | GetShelf _ | GetHistory _ => s
  end.

(** The record of mutations grew by exactly the mutations that lead from
    the one store to the other. *)
Definition replays (w w' : World) : Prop :=
  exists l, writes w' = writes w ++ l /\ store w' = foldl applyOp (store w) l.

(** The user document, the shelf and the accounts are as they were. *)
Definition historyOnly (w w' : World) : Prop :=
  users (store w') = users (store w) /\ shelf (store w') = shelf (store w)
  /\ accounts (store w') = accounts (store w).

(* ===================================================================== *)
(** ** Data of the examples *)
(* ===================================================================== *)

(** A parser that knows no format, for the closed examples. *)
Definition rejectAll (s : string) : Date := None.

(** A parser that knows one ISO string, 45 minutes before the clock reading
    1700000000000 of the examples, and rejects everything else. *)
Definition demoParse (s : string) : Date :=
  if String.eqb s "2023-11-14T21:28:20.000Z" then Some 1699997300000 else None.

(** A record of the shelf whose only date is the store timestamp [t]. *)
Definition scannedAt (t : Z) : Scan :=
  mkScan "s1" "u1" "a@b.c" "Papaya" (Some "Ripe")
         TsAbsent (TsNative (Normal (Some t))) TsAbsent TsAbsent.

Definition papaya (id : string) (t : Z) : Document :=
  mkDocument id (Some "Papaya") (Some "Ripe") TsAbsent
             (TsNative (Normal (Some t))) TsAbsent TsAbsent.

(** A user with two shelf documents whose history cannot be fetched. *)
Definition userHistoryDown : UserEntry :=
  mkUserEntry "u1" (Some "ana@example.com")
    (Normal [papaya "d1" 1699990000000; papaya "d2" 1699980000000])
    (Throw "UNAVAILABLE").

(** A user with one shelf and one history document, both fetched. *)
Definition userFetched : UserEntry :=
  mkUserEntry "u2" (Some "ben@example.com")
    (Normal [papaya "d3" 1699970000000])
    (Normal [papaya "h1" 1699000000000]).

(** A store with the user [u1] (one shelf document, one history document,
    an account) and a shelf document of another user. *)
Definition demoStore : Store :=
  mkStore {[ "u1" := Some "ana@example.com" ]}
          {[ ("u1", "d1") := papaya "d1" 1699990000000;
             ("u2", "d9") := papaya "d9" 1699980000000 ]}
          {[ ("u1", "h1") := papaya "h1" 1699000000000 ]}
          {[ "u1" ]}.

Definition noFaults (op : StoreOp) : option string := None.

(** The delete of the history document [h1] is rejected. *)
Definition historyDeleteFails (op : StoreOp) : option string :=
  match op with
  | DeleteHistoryDoc _ _ => Some "UNAVAILABLE"
  | _ => None
  end.

(** The identity provider rejects the deletion of the account of [u1]. *)
Definition accountDeleteFails (op : StoreOp) : option string :=
  match op with
  | DeleteAccount u => if String.eqb u "u1" then Some "auth/internal-error" else None
  | _ => None
  end.

(** Two documents of a snapshot; the second stores a field named [id]. *)
Definition demoDocs : list RawDoc :=
  [ mkRawDoc "d1" {[ "name" := VString "Papaya" ]};
    mkRawDoc "d2" (<[ "id" := VNumber 7 ]> {[ "name" := VString "Green papaya" ]}) ].

(* ===================================================================== *)
(** * Properties *)
(* ===================================================================== *)

(** ** Strings *)

Lemma append_cons (c : ascii) (s t : string) :
  String c s +:+ t = String c (s +:+ t).
Proof. reflexivity. Qed.

Lemma append_nil (t : string) : "" +:+ t = t.
Proof. reflexivity. Qed.

Lemma prefix_append (sub s : string) :
  String.prefix sub s = true <-> exists post, s = sub +:+ post.
Proof.
  revert s. induction sub as [|c sub IH]; intros s.
  - split; [intros _; exists s; reflexivity | intros _; destruct s; reflexivity].
  - destruct s as [|d s]; simpl.
    + split; [discriminate | intros [post H]; discriminate].
    + destruct (Ascii.ascii_dec c d) as [->|Hne].
      * rewrite IH. split; intros [post H]; exists post.
        -- rewrite append_cons. now rewrite H.
        -- rewrite append_cons in H. congruence.
      * split; [discriminate | intros [post H]; rewrite append_cons in H; congruence].
Qed.

Lemma includes_nil (sub : string) :
  includes "" sub = String.prefix sub "" || false.
Proof. reflexivity. Qed.

Lemma includes_cons (c : ascii) (s sub : string) :
  includes (String c s) sub = String.prefix sub (String c s) || includes s sub.
Proof. reflexivity. Qed.

Lemma includes_contains (s sub : string) :
  includes s sub = true <-> Contains s sub.
Proof.
  unfold Contains. induction s as [|c s IH]; [rewrite includes_nil | rewrite includes_cons].
  - rewrite orb_false_r, prefix_append. split.
    + intros [post H]. exists "", post. exact H.
    + intros [pre [post H]]. destruct pre.
      * exists post. exact H.
      * discriminate.
  - rewrite orb_true_iff, prefix_append, IH. split.
    + intros [[post H] | [pre [post H]]].
      * exists "", post. exact H.
      * exists (String c pre), post. rewrite append_cons. now rewrite H.
    + intros [pre [post H]]. destruct pre as [|d pre].
      * left. exists post. exact H.
      * right. exists pre, post. rewrite append_cons in H. congruence.
Qed.

Lemma includes_not_contains (s sub : string) :
  includes s sub = false <-> ~ Contains s sub.
Proof.
  rewrite <- includes_contains. destruct (includes s sub); split; congruence.
Qed.

(** ** calculateFreshnessDistribution *)

(** C5. The classifier works on the lower-cased label (the empty string when
    the field is absent) and takes the first rule that matches: a label that
    contains "unripe", equals "green" or contains "early" is unripe, whether
    or not it also contains "overripe", equals "rotten" or contains "late";
    a label that misses the first rule and meets the second is overripe; a
    label that meets neither is ripe. In particular an absent label, the
    empty label, "Unknown" and "fully ripe" are ripe, "Green" is unripe and
    "ROTTEN" is overripe. *)
Theorem classify_first_match_wins (f : option string) :
  let label := toLowerCase (str_or f "") in
  let rule1 := Contains label "unripe" \/ label = "green" \/ Contains label "early" in
  let rule2 := Contains label "overripe" \/ label = "rotten" \/ Contains label "late" in
  (rule1 -> classify f = Unripe) /\
  (~ rule1 -> rule2 -> classify f = Overripe) /\
  (~ rule1 -> ~ rule2 -> classify f = Ripe) /\
  classify None = Ripe /\ classify (Some "") = Ripe /\
  classify (Some "Unknown") = Ripe /\ classify (Some "fully ripe") = Ripe /\
  classify (Some "Green") = Unripe /\ classify (Some "ROTTEN") = Overripe.
Proof.
  intros label rule1 rule2.
  assert (H1 : includes label "unripe" || String.eqb label "green"
               || includes label "early" = true <-> rule1).
  { unfold rule1. rewrite !orb_true_iff, !includes_contains, String.eqb_eq. tauto. }
  assert (H2 : includes label "overripe" || String.eqb label "rotten"
               || includes label "late" = true <-> rule2).
  { unfold rule2. rewrite !orb_true_iff, !includes_contains, String.eqb_eq. tauto. }
  unfold classify, freshnessLabel. fold label.
  destruct (includes label "unripe" || String.eqb label "green"
            || includes label "early") eqn:E1;
  destruct (includes label "overripe" || String.eqb label "rotten"
            || includes label "late") eqn:E2;
  repeat split; try reflexivity; intros; try reflexivity;
  repeat match goal with
  | H : ~ _ |- _ => exfalso; apply H; first [apply H1 | apply H2]; reflexivity
  | H : rule1 |- _ => apply H1 in H; discriminate
  | H : rule2 |- _ => apply H2 in H; discriminate
  end.
Qed.

(** A label that carries a trigger of each rule. *)
Lemma classify_first_match_wins_witness :
  classify (Some "Unripe, picked late") = Unripe.
Proof.
  apply (proj1 (classify_first_match_wins (Some "Unripe, picked late"))).
  left. exists "", ", picked late". reflexivity.
Defined.

(** The callback adds one to exactly one counter. *)
Lemma tally_step_one (d : Distribution) (scan : Scan) :
  total (tally_step d scan) = total d + 1 /\ (nonneg d -> nonneg (tally_step d scan)).
Proof.
  unfold tally_step, total, nonneg.
  destruct (classify (freshness scan)); simpl; lia.
Qed.

Lemma fold_tally_total (scans : list Scan) (d : Distribution) :
  nonneg d ->
  total (fold_left tally_step scans d) = total d + Z.of_nat (length scans)
  /\ nonneg (fold_left tally_step scans d).
Proof.
  revert d. induction scans as [|scan scans IH]; intros d Hd; simpl.
  - split; [lia | exact Hd].
  - destruct (tally_step_one d scan) as [Ht Hn].
    destruct (IH (tally_step d scan) (Hn Hd)) as [IHt IHn].
    split; [rewrite IHt, Ht; lia | exact IHn].
Qed.

Lemma tally_total (scans : list Scan) :
  total (tally scans) = Z.of_nat (length scans) /\ nonneg (tally scans).
Proof.
  destruct (fold_tally_total scans (mkDist 0 0 0)) as [Ht Hn].
  - unfold nonneg; simpl; lia.
  - split; [exact Ht | exact Hn].
Qed.

Lemma allZero_total (d : Distribution) :
  nonneg d -> (allZero d = true <-> total d = 0).
Proof.
  unfold nonneg, allZero, total. intros H.
  rewrite !andb_true_iff, !Z.eqb_eq. lia.
Qed.

(** C10. Every record is counted in exactly one bucket (the callback adds
    one to one of the three counters and leaves the other two): for a
    non-empty list of scans the three counts of the result add up to the
    number of records,
    and the counters are all zero after the loop (the condition of the
    {1, 1, 1} fallback) exactly when the list is empty. *)
Theorem freshness_distribution_counts_all (scans : list Scan) :
  (forall d scan,
     tally_step d scan = mkDist (unripe d + 1) (ripe d) (overripe d)
     \/ tally_step d scan = mkDist (unripe d) (ripe d + 1) (overripe d)
     \/ tally_step d scan = mkDist (unripe d) (ripe d) (overripe d + 1)) /\
  (scans <> [] ->
   total (calculateFreshnessDistribution scans) = Z.of_nat (length scans)) /\
  (allZero (tally scans) = true <-> scans = []) /\
  (calculateFreshnessDistribution [] = mkDist 1 1 1).
Proof.
  destruct (tally_total scans) as [Ht Hn].
  assert (Hz : allZero (tally scans) = true <-> scans = []).
  { rewrite (allZero_total _ Hn), Ht. destruct scans; simpl; split;
      intros; try reflexivity; try discriminate; lia. }
  split.
  { intros d scan. unfold tally_step. destruct (classify (freshness scan)); auto. }
  split; [| split; [exact Hz | reflexivity]].
  intros Hne. unfold calculateFreshnessDistribution.
  destruct (allZero (tally scans)) eqn:E.
  - exfalso. apply Hne, Hz. reflexivity.
  - exact Ht.
Qed.

Lemma freshness_distribution_counts_all_witness :
  total (calculateFreshnessDistribution
           [mkScan "s1" "u1" "a@b.c" "Papaya" (Some "Green")
                   TsAbsent TsAbsent TsAbsent TsAbsent]) = 1.
Proof.
  apply (proj1 (proj2 (freshness_distribution_counts_all
           [mkScan "s1" "u1" "a@b.c" "Papaya" (Some "Green")
                   TsAbsent TsAbsent TsAbsent TsAbsent]))).
  discriminate.
Defined.

Section HelperProperties.

Variable parseDate : string -> Date.

(** ** formatTimeAgo *)

(** The decoding of the representations the store produces. *)
Lemma activityTimeOf_native (d : Date) :
  activityTimeOf parseDate (TsNative (Normal d)) = Normal d.
Proof. reflexivity. Qed.

Lemma activityTimeOf_seconds (seconds : Z) :
  seconds <> 0 -> Z.abs (seconds * 1000) <= maxTime ->
  activityTimeOf parseDate (TsSeconds seconds) = Normal (Some (seconds * 1000)).
Proof.
  intros Hnz Hr. unfold activityTimeOf, dateOfNumber.
  destruct (Z.eqb_spec seconds 0) as [|_]; [contradiction |]. simpl.
  destruct (Z.leb_spec (Z.abs (seconds * 1000)) maxTime); [reflexivity | lia].
Qed.

Lemma formatTimeAgo_falsy (now : Z) (timestamp : Timestamp) :
  truthy timestamp = false -> formatTimeAgo parseDate now timestamp = Normal "Recent".
Proof. intros H. unfold formatTimeAgo. now rewrite H. Qed.

Lemma formatTimeAgo_truthy (now : Z) (timestamp : Timestamp) :
  truthy timestamp = true ->
  formatTimeAgo parseDate now timestamp =
    match activityTimeOf parseDate timestamp with
    | Normal (Some t) => Normal (timeAgoLabel now t)
    | _ => Normal "Recent"
    end.
Proof.
  intros H. unfold formatTimeAgo, formatTimeAgo_try. rewrite H. simpl.
  destruct (activityTimeOf parseDate timestamp) as [[t|]|m]; reflexivity.
Qed.

Lemma formatTimeAgo_normal (now : Z) (timestamp : Timestamp) :
  exists label, formatTimeAgo parseDate now timestamp = Normal label.
Proof.
  destruct (truthy timestamp) eqn:E.
  - rewrite (formatTimeAgo_truthy now timestamp E).
    destruct (activityTimeOf parseDate timestamp) as [[t|]|m]; eauto.
  - rewrite (formatTimeAgo_falsy now timestamp E). eauto.
Qed.

Ltac time_case :=
  unfold timeAgoLabel; change (1000 * 60) with 60000;
  repeat match goal with
  | |- context [?a <? ?b] => destruct (Z.ltb_spec a b); try lia
  end; try reflexivity.

(** The answer in terms of the instant the timestamp is decoded to. *)
Lemma formatTimeAgo_cases (now : Z) (timestamp : Timestamp) :
  (truthy timestamp = false ->
   formatTimeAgo parseDate now timestamp = Normal "Recent") /\
  (truthy timestamp = true ->
   (forall m, activityTimeOf parseDate timestamp = Throw m ->
      formatTimeAgo parseDate now timestamp = Normal "Recent") /\
   (activityTimeOf parseDate timestamp = Normal None ->
      formatTimeAgo parseDate now timestamp = Normal "Recent") /\
   (forall t, activityTimeOf parseDate timestamp = Normal (Some t) ->
      let minutes := (now - t) / 60000 in
      (minutes < 1 ->
       formatTimeAgo parseDate now timestamp = Normal "Just now") /\
      (1 <= minutes < 60 ->
       formatTimeAgo parseDate now timestamp
         = Normal (num_to_string minutes +:+ " mins ago")) /\
      (60 <= minutes < 1440 ->
       formatTimeAgo parseDate now timestamp
         = Normal (num_to_string (minutes / 60) +:+ " hr ago")) /\
      (1440 <= minutes ->
       formatTimeAgo parseDate now timestamp
         = Normal (num_to_string (minutes / 1440) +:+ " days ago")))).
Proof.
  split; [apply formatTimeAgo_falsy |].
  intros Ht. rewrite (formatTimeAgo_truthy now timestamp Ht).
  split; [intros m ->; reflexivity |].
  split; [intros ->; reflexivity |].
  intros t -> minutes. subst minutes.
  repeat split; intros H; f_equal; time_case.
Qed.

(** C7. [formatTimeAgo] returns a string for every input and never raises;
    when the decoding of the timestamp raises, the string is "Recent". *)
Theorem formatTimeAgo_never_raises (now : Z) (timestamp : Timestamp) :
  (exists label, formatTimeAgo parseDate now timestamp = Normal label) /\
  (forall m, formatTimeAgo parseDate now timestamp <> Throw m) /\
  (forall m, activityTimeOf parseDate timestamp = Throw m ->
     formatTimeAgo parseDate now timestamp = Normal "Recent").
Proof.
  destruct (formatTimeAgo_normal now timestamp) as [label Hl].
  split; [eauto |]. split; [intros m; rewrite Hl; discriminate |].
  intros m Hm. destruct (truthy timestamp) eqn:E.
  - rewrite (formatTimeAgo_truthy now timestamp E), Hm. reflexivity.
  - apply formatTimeAgo_falsy, E.
Qed.

(** C9. A timestamp that decodes to an instant after [now] is labelled
    "Just now". *)
Theorem formatTimeAgo_future (now t : Z) (timestamp : Timestamp) :
  truthy timestamp = true ->
  activityTimeOf parseDate timestamp = Normal (Some t) ->
  now < t ->
  formatTimeAgo parseDate now timestamp = Normal "Just now".
Proof.
  intros Ht Hd Hlt. rewrite (formatTimeAgo_truthy now timestamp Ht), Hd.
  f_equal. unfold timeAgoLabel. change (1000 * 60) with 60000.
  assert ((now - t) / 60000 < 0) by (apply Z.div_lt_upper_bound; lia).
  destruct (Z.ltb_spec ((now - t) / 60000) 1); [reflexivity | lia].
Qed.

(** ** formatTimeAgo on each representation *)

Lemma length_append_string (a b : string) :
  String.length (a +:+ b) = (String.length a + String.length b)%nat.
Proof. induction a as [|c a IH]; [reflexivity |]. rewrite append_cons. simpl. now rewrite IH. Qed.

(** "Recent" is not the label of any number of elapsed minutes. *)
Lemma recent_not_elapsed (minutes : Z) : ~ ElapsedLabel minutes "Recent".
Proof.
  intros H. inversion H as [_ Heq | _ Heq | _ Heq | _ Heq];
    try discriminate;
    apply (f_equal String.length) in Heq; rewrite length_append_string in Heq;
    simpl in Heq; lia.
Qed.

Lemma timeAgoLabel_elapsed (now t : Z) :
  ElapsedLabel ((now - t) / 60000) (timeAgoLabel now t).
Proof.
  unfold timeAgoLabel. change (1000 * 60) with 60000.
  destruct (Z.ltb_spec ((now - t) / 60000) 1); [constructor; lia |].
  destruct (Z.ltb_spec ((now - t) / 60000) 60); [constructor; lia |].
  destruct (Z.ltb_spec ((now - t) / 60000) 1440); constructor; lia.
Qed.

(** Every representation but one is answered as the specification says:
    "Recent" for an absent value, for a string that does not parse, for a
    [toDate] that raises or gives an invalid date and for an instant out of
    the range of [Date]; the label of the elapsed minutes for a string that
    parses, a store timestamp, an epoch-seconds object with [seconds] other
    than 0, a number other than 0 and a [Date]. The exception is the
    epoch-seconds object with [seconds] 0, which is treated as an object
    without [seconds]. *)
Lemma formatTimeAgo_by_representation (now : Z) :
  formatTimeAgo parseDate now TsAbsent = Normal "Recent"
  /\ formatTimeAgo parseDate now (TsString "") = Normal "Recent"
  /\ (forall s, parseDate s = None ->
        formatTimeAgo parseDate now (TsString s) = Normal "Recent")
  /\ (forall s t, s <> "" -> parseDate s = Some t ->
        exists label, formatTimeAgo parseDate now (TsString s) = Normal label
                      /\ ElapsedLabel ((now - t) / 60000) label)
  /\ (forall m, formatTimeAgo parseDate now (TsNative (Throw m)) = Normal "Recent")
  /\ formatTimeAgo parseDate now (TsNative (Normal None)) = Normal "Recent"
  /\ (forall t,
        exists label, formatTimeAgo parseDate now (TsNative (Normal (Some t))) = Normal label
                      /\ ElapsedLabel ((now - t) / 60000) label)
  /\ (forall n, n <> 0 -> Z.abs (n * 1000) <= maxTime ->
        exists label, formatTimeAgo parseDate now (TsSeconds n) = Normal label
                      /\ ElapsedLabel ((now - n * 1000) / 60000) label)
  /\ (forall n, maxTime < Z.abs (n * 1000) ->
        formatTimeAgo parseDate now (TsSeconds n) = Normal "Recent")
  /\ (forall n, n <> 0 -> Z.abs n <= maxTime ->
        exists label, formatTimeAgo parseDate now (TsNumber n) = Normal label
                      /\ ElapsedLabel ((now - n) / 60000) label)
  /\ (forall t,
        exists label, formatTimeAgo parseDate now (TsDate (Some t)) = Normal label
                      /\ ElapsedLabel ((now - t) / 60000) label)
  /\ formatTimeAgo parseDate now (TsDate None) = Normal "Recent"
  /\ formatTimeAgo parseDate now (TsSeconds 0)
     = formatTimeAgo parseDate now (TsObject "[object Object]").
Proof.
  repeat apply conj; try reflexivity.
  - intros s Hs. unfold formatTimeAgo, formatTimeAgo_try. simpl. rewrite Hs.
    destruct (negb (negb (s =? "")%string)); reflexivity.
  - intros s t Hne Hs. exists (timeAgoLabel now t).
    split; [| apply timeAgoLabel_elapsed].
    unfold formatTimeAgo, formatTimeAgo_try. simpl. rewrite Hs.
    destruct (String.eqb_spec s ""); [contradiction | reflexivity].
  - intros t. exists (timeAgoLabel now t). split; [reflexivity | apply timeAgoLabel_elapsed].
  - intros n Hn Hr. exists (timeAgoLabel now (n * 1000)).
    split; [| apply timeAgoLabel_elapsed].
    rewrite (formatTimeAgo_truthy now (TsSeconds n) eq_refl),
      (activityTimeOf_seconds n Hn Hr). reflexivity.
  - intros n Hr. unfold formatTimeAgo, formatTimeAgo_try, activityTimeOf, dateOfNumber.
    simpl. destruct (Z.eqb_spec n 0) as [-> | _]; [unfold maxTime in Hr; simpl in Hr; lia |].
    simpl. destruct (Z.leb_spec (Z.abs (n * 1000)) maxTime); [lia | reflexivity].
  - intros n Hn Hr. exists (timeAgoLabel now n). split; [| apply timeAgoLabel_elapsed].
    unfold formatTimeAgo, formatTimeAgo_try, activityTimeOf, newDate, dateOfNumber, truthy.
    destruct (Z.eqb_spec n 0) as [|_]; [contradiction |]. simpl.
    destruct (Z.leb_spec (Z.abs n) maxTime); [reflexivity | lia].
  - intros t. exists (timeAgoLabel now t). split; [reflexivity | apply timeAgoLabel_elapsed].
Qed.

(** C6. The epoch-seconds object with [seconds] 0 is not answered by its
    elapsed minutes. The test [timestamp.seconds] is falsy for 0, so the
    object goes to [new Date(timestamp)] as a plain object, the date is
    invalid and the answer is "Recent". For a clock reading a day or more
    after the epoch the label of the minutes elapsed since the epoch is
    "<N> days ago" with N = floor(minutes / 1440), and "Recent" is the label
    of no number of elapsed minutes. *)
Theorem formatTimeAgo_epoch_seconds_zero (now : Z) :
  parseDate "[object Object]" = None ->
  1440 * 60000 <= now ->
  let minutes := (now - 0 * 1000) / 60000 in
  formatTimeAgo parseDate now (TsSeconds 0) = Normal "Recent"
  /\ ElapsedLabel minutes (num_to_string (minutes / 1440) +:+ " days ago")
  /\ ~ ElapsedLabel minutes "Recent".
Proof.
  intros Hparse Hnow minutes. split; [| split].
  - unfold formatTimeAgo, formatTimeAgo_try. simpl. rewrite Hparse. reflexivity.
  - apply ElapsedDays. subst minutes. apply Z.div_le_lower_bound; lia.
  - apply recent_not_elapsed.
Qed.

End HelperProperties.

Lemma formatTimeAgo_epoch_seconds_zero_witness :
  formatTimeAgo demoParse 1700000000000 (TsSeconds 0) = Normal "Recent"
  /\ ElapsedLabel ((1700000000000 - 0 * 1000) / 60000) "19675 days ago".
Proof.
  destruct (formatTimeAgo_epoch_seconds_zero demoParse 1700000000000) as (H1 & H2 & _).
  - reflexivity.
  - lia.
  - split; [exact H1 | exact H2].
Defined.

(** The examples of the specification on strings, for a parser that knows
    the string. *)
Example formatTimeAgo_iso_string :
  formatTimeAgo demoParse 1700000000000 (TsString "2023-11-14T21:28:20.000Z")
    = Normal "45 mins ago"
  /\ formatTimeAgo demoParse 1700000000000 (TsString "not-a-date") = Normal "Recent".
Proof. split; reflexivity. Qed.

(** The examples of the specification, at the clock reading 1700000000000
    (2023-11-14T22:13:20Z) and for a parser that rejects "not-a-date". *)
Section TimeExamples.

Variable parseDate : string -> Date.
Hypothesis not_a_date : parseDate "not-a-date" = None.

Let now : Z := 1700000000000.

Example formatTimeAgo_null : formatTimeAgo parseDate now TsAbsent = Normal "Recent".
Proof. reflexivity. Qed.

Example formatTimeAgo_30_seconds :
  formatTimeAgo parseDate now (TsSeconds (1700000000 - 30)) = Normal "Just now".
Proof. reflexivity. Qed.

Example formatTimeAgo_45_minutes :
  formatTimeAgo parseDate now (TsSeconds (1700000000 - 45 * 60)) = Normal "45 mins ago".
Proof. reflexivity. Qed.

Example formatTimeAgo_3_hours :
  formatTimeAgo parseDate now (TsNative (Normal (Some (now - 3 * 3600000))))
    = Normal "3 hr ago".
Proof. reflexivity. Qed.

Example formatTimeAgo_5_days :
  formatTimeAgo parseDate now (TsNative (Normal (Some (now - 5 * 86400000))))
    = Normal "5 days ago".
Proof. reflexivity. Qed.

Example formatTimeAgo_invalid_string :
  formatTimeAgo parseDate now (TsString "not-a-date") = Normal "Recent".
Proof. unfold formatTimeAgo, formatTimeAgo_try. simpl. now rewrite not_a_date. Qed.

(** An epoch-seconds object for the epoch itself has a falsy [seconds] and
    is decoded as a plain object. *)
Example formatTimeAgo_seconds_zero :
  formatTimeAgo parseDate now (TsSeconds 0)
    = match parseDate "[object Object]" with
      | Some t => Normal (timeAgoLabel now t)
      | None => Normal "Recent"
      end.
Proof.
  unfold formatTimeAgo, formatTimeAgo_try. simpl.
  destruct (parseDate "[object Object]"); reflexivity.
Qed.

End TimeExamples.

Lemma formatTimeAgo_never_raises_witness :
  formatTimeAgo rejectAll 1700000000000 (TsNative (Throw "toDate is not a function"))
    = Normal "Recent".
Proof.
  apply (proj2 (proj2 (formatTimeAgo_never_raises rejectAll 1700000000000
           (TsNative (Throw "toDate is not a function"))))
           "toDate is not a function").
  reflexivity.
Defined.

Lemma formatTimeAgo_future_witness :
  formatTimeAgo rejectAll 1700000000000 (TsSeconds 1700003600) = Normal "Just now".
Proof.
  apply (formatTimeAgo_future rejectAll 1700000000000 1700003600000).
  - reflexivity.
  - reflexivity.
  - lia.
Defined.

(* ===================================================================== *)
(** ** calculateWeeklyScans *)
(* ===================================================================== *)

Section WeeklyProperties.

Variable parseDate : string -> Date.

Lemma array_incr_fourCounts (a : JsArray) (i : Z) :
  fourCounts a -> 0 <= i <= 3 -> fourCounts (array_incr a i).
Proof.
  intros (c0 & c1 & c2 & c3 & -> & H0 & H1 & H2 & H3) Hi.
  assert (Hc : i = 0 \/ i = 1 \/ i = 2 \/ i = 3) by lia.
  destruct Hc as [-> | [-> | [-> | ->]]]; unfold array_incr; simpl;
    [ exists (c0 + 1), c1, c2, c3 | exists c0, (c1 + 1), c2, c3
    | exists c0, c1, (c2 + 1), c3 | exists c0, c1, c2, (c3 + 1) ];
    repeat split; lia.
Qed.

Lemma weekly_step_fourCounts (now : Z) (a : JsArray) (scan : Scan) :
  fourCounts a -> notAhead parseDate now scan ->
  exists a', weekly_step parseDate now a scan = Normal a' /\ fourCounts a'.
Proof.
  intros Ha Hs. unfold weekly_step.
  destruct (truthy (anchorOf scan)) eqn:E; [| eauto].
  destruct (Hs E) as (date & -> & Hd). simpl.
  destruct date as [d|]; simpl; [| eauto].
  specialize (Hd d eq_refl).
  assert (0 <= (now - d) / msPerWeek)
    by (apply Z.div_pos; [lia | reflexivity]).
  destruct (Z.ltb_spec ((now - d) / msPerWeek) 4); [| eauto].
  eexists; split; [reflexivity |].
  apply array_incr_fourCounts; [exact Ha | lia].
Qed.

Lemma forEach_weekly_fourCounts (now : Z) (scans : list Scan) (a : JsArray) :
  fourCounts a -> Forall (notAhead parseDate now) scans ->
  exists a', forEachC (weekly_step parseDate now) scans a = Normal a' /\ fourCounts a'.
Proof.
  revert a. induction scans as [|scan scans IH]; intros a Ha Hs; simpl.
  - eauto.
  - inversion Hs as [|? ? Hscan Hrest]; subst.
    destruct (weekly_step_fourCounts now a scan Ha Hscan) as (a1 & -> & Ha1).
    simpl. apply IH; assumption.
Qed.

(** The empty collection gives the placeholder. *)
Lemma calculateWeeklyScans_empty (now : Z) :
  calculateWeeklyScans parseDate now []
    = Normal [Some (Int 2); Some (Int 5); Some (Int 8); Some (Int 12)].
Proof. reflexivity. Qed.

(** When no anchor is ahead of the clock, the result has four integer
    entries and each of them is at least 1. *)
Lemma calculateWeeklyScans_not_ahead (now : Z) (scans : list Scan) :
  Forall (notAhead parseDate now) scans ->
  exists c0 c1 c2 c3,
    calculateWeeklyScans parseDate now scans
      = Normal [Some (Int c0); Some (Int c1); Some (Int c2); Some (Int c3)]
    /\ 1 <= c0 /\ 1 <= c1 /\ 1 <= c2 /\ 1 <= c3.
Proof.
  intros Hs. unfold calculateWeeklyScans.
  destruct scans as [|scan scans].
  - simpl. exists 2, 5, 8, 12. repeat split; lia.
  - change (length (scan :: scans) =? 0)%nat with false. cbv iota.
    destruct (forEach_weekly_fourCounts now (scan :: scans)
                [Some (Int 0); Some (Int 0); Some (Int 0); Some (Int 0)])
      as (a' & -> & (c0 & c1 & c2 & c3 & -> & H0 & H1 & H2 & H3)).
    + exists 0, 0, 0, 0. repeat split; lia.
    + exact Hs.
    + simpl. exists (Z.max 1 c0), (Z.max 1 c1), (Z.max 1 c2), (Z.max 1 c3).
      repeat split; lia.
Qed.

(** The example of the specification: anchors now, 8, 15 and 22 days ago. *)
Example calculateWeeklyScans_four_weeks :
  calculateWeeklyScans parseDate 1700000000000
    [scannedAt 1700000000000; scannedAt (1700000000000 - 8 * 86400000);
     scannedAt (1700000000000 - 15 * 86400000);
     scannedAt (1700000000000 - 22 * 86400000)]
  = Normal [Some (Int 1); Some (Int 1); Some (Int 1); Some (Int 1)].
Proof. reflexivity. Qed.

(** Records five or more weeks old are dropped and empty buckets are
    floored. *)
Example calculateWeeklyScans_old_dropped :
  calculateWeeklyScans parseDate 1700000000000
    [scannedAt 1700000000000; scannedAt 1700000000000;
     scannedAt (1700000000000 - 40 * 86400000)]
  = Normal [Some (Int 1); Some (Int 1); Some (Int 1); Some (Int 2)].
Proof. reflexivity. Qed.

(** A record dated after the clock reading is counted past the four
    buckets, whatever the counters hold. *)
Lemma weekly_step_ahead (now d : Z) (a : JsArray) :
  now < d -> d - now < 4294967290 * msPerWeek -> fourCounts a ->
  exists a', weekly_step parseDate now a (scannedAt d) = Normal a'
             /\ (4 < length a')%nat /\ last a' = Some (Some NaN).
Proof.
  intros Hlt Hbound (c0 & c1 & c2 & c3 & -> & _).
  unfold weekly_step, scannedAt, anchorOf, ts_or. simpl.
  assert (Hneg : (now - d) / msPerWeek < 0)
    by (apply Z.div_lt_upper_bound; [reflexivity | lia]).
  assert (Hlow : - 4294967290 <= (now - d) / msPerWeek)
    by (apply Z.div_le_lower_bound; [reflexivity | lia]).
  destruct (Z.ltb_spec ((now - d) / msPerWeek) 4); [| lia].
  eexists; split; [reflexivity |].
  unfold array_incr.
  destruct (Z.leb_spec 4294967295 (3 - (now - d) / msPerWeek)); [lia |].
  rewrite lookup_ge_None_2 by (simpl; lia).
  split.
  - rewrite !length_app. simpl. lia.
  - rewrite app_assoc. apply last_snoc.
Qed.

(** C1. The loop tests [diffWeeks < 4] only. A record scanned 8 days after
    the clock reading has [diffWeeks = -2]; it is not dropped but counted at
    index 5, past the four buckets: the array grows to 6 entries, with a
    hole at index 4 and NaN at index 5. *)
Theorem calculateWeeklyScans_future_anchor_not_dropped :
  diffWeeksOf 1700000000000 (Some (1700000000000 + 8 * 86400000)) = Some (-2)
  /\ calculateWeeklyScans parseDate 1700000000000
       [scannedAt (1700000000000 + 8 * 86400000)]
     = Normal [Some (Int 1); Some (Int 1); Some (Int 1); Some (Int 1);
               None; Some NaN].
Proof. split; reflexivity. Qed.

(** C4. For a non-empty collection [Math.max(1, count)] is applied to every
    entry, but an entry can be NaN, which the floor leaves as it is: with one
    record of today and one scanned a day after the clock reading, the entry
    at index 4 of the result is NaN, not a number that is at least 1. *)
Theorem calculateWeeklyScans_floor_keeps_nan :
  calculateWeeklyScans parseDate 1700000000000
    [scannedAt 1700000000000; scannedAt (1700000000000 + 86400000)]
  = Normal [Some (Int 1); Some (Int 1); Some (Int 1); Some (Int 1); Some NaN]
  /\ max1 NaN = NaN.
Proof. split; reflexivity. Qed.

End WeeklyProperties.

(* ===================================================================== *)
(** ** GET /api/dashboard/stats *)
(* ===================================================================== *)

Section DashboardProperties.

Variable parseDate : string -> Date.

Lemma shelfItemStep_neutral (now : Z) (u : UserEntry) (doc : Document) :
  countNeutral (shelfItemStep parseDate now u doc).
Proof.
  intros v. unfold shelfItemStep, sbind, assign, await.
  destruct (formatTimeAgo_normal parseDate now
              (ts_or (scannedDate (scanDataOf u doc)) (addedAt (scanDataOf u doc))))
    as [label ->].
  eexists; split; [reflexivity |]. repeat split.
Qed.

Lemma historyItemStep_neutral (now : Z) (u : UserEntry) (doc : Document) :
  countNeutral (historyItemStep parseDate now u doc).
Proof.
  intros v. unfold historyItemStep, sbind, assign, await.
  destruct (formatTimeAgo_normal parseDate now
              (ts_or (doc_scannedDate doc) (doc_archivedAt doc))) as [label ->].
  eexists; split; [reflexivity |]. repeat split.
Qed.

Lemma sfor_neutral {A} (xs : list A) (body : A -> Stmt DashVars unit) :
  (forall x, countNeutral (body x)) -> countNeutral (sfor xs body).
Proof.
  intros Hb. induction xs as [|x xs IH]; intros v; simpl.
  - exists v. repeat split.
  - unfold sbind. destruct (Hb x v) as (v1 & -> & H1 & H2 & H3).
    destruct (IH v1) as (v2 & -> & H4 & H5 & H6).
    exists v2. split; [reflexivity |]. unfold sameCounts. repeat split; congruence.
Qed.

(** A user whose shelf cannot be fetched changes nothing. *)
Lemma processUser_shelf_fails (now : Z) (u : UserEntry) (m : string) (v : DashVars) :
  shelfFetch u = Throw m -> processUser parseDate now u v = (v, Normal tt).
Proof.
  intros H. unfold processUser, stry, sbind, await. rewrite H. reflexivity.
Qed.

(** A user whose history cannot be fetched after the shelf was fetched has
    already been counted in [totalShelfItems], and in nothing else. *)
Lemma processUser_history_fails (now : Z) (u : UserEntry) (docs : list Document)
      (m : string) (v : DashVars) :
  shelfFetch u = Normal docs -> historyFetch u = Throw m ->
  processUser parseDate now u v
    = (addShelfItems (Z.of_nat (length docs)) v, Normal tt).
Proof.
  intros Hs Hh. unfold processUser, stry, sbind, await, assign.
  rewrite Hs, Hh. reflexivity.
Qed.

(** A user whose two fetches succeed is counted in all three totals. *)
Lemma processUser_fetched (now : Z) (u : UserEntry) (docs hist : list Document)
      (v : DashVars) :
  shelfFetch u = Normal docs -> historyFetch u = Normal hist ->
  exists v', processUser parseDate now u v = (v', Normal tt)
    /\ totalShelfItems v' = totalShelfItems v + Z.of_nat (length docs)
    /\ totalHistoryItems v' = totalHistoryItems v + Z.of_nat (length hist)
    /\ totalScans v'
       = totalScans v + (Z.of_nat (length docs) + Z.of_nat (length hist)).
Proof.
  intros Hs Hh. unfold processUser, stry.
  unfold sbind at 1, await at 1. rewrite Hs.
  unfold sbind at 1, assign at 1.
  unfold sbind at 1, await at 1. rewrite Hh.
  unfold sbind at 1, assign at 1.
  unfold sbind at 1.
  destruct (sfor_neutral docs (shelfItemStep parseDate now u)
              (shelfItemStep_neutral now u)
              (addHistoryItems (Z.of_nat (length hist))
                 (addShelfItems (Z.of_nat (length docs)) v)))
    as (v1 & -> & H1 & H2 & H3).
  unfold sbind at 1.
  destruct (sfor_neutral hist (historyItemStep parseDate now u)
              (historyItemStep_neutral now u) v1) as (v2 & -> & H4 & H5 & H6).
  unfold assign. eexists; split; [reflexivity |].
  simpl in *. repeat split; lia.
Qed.

(** The loop never stops early: every user is processed. *)
Lemma processUser_completes (now : Z) (u : UserEntry) (v : DashVars) :
  exists v', processUser parseDate now u v = (v', Normal tt)
    /\ totalScans v' - totalScans v
       <= (totalShelfItems v' - totalShelfItems v)
          + (totalHistoryItems v' - totalHistoryItems v)
    /\ ((forall docs, shelfFetch u = Normal docs ->
           exists hist, historyFetch u = Normal hist) ->
        totalScans v' - totalScans v
        = (totalShelfItems v' - totalShelfItems v)
          + (totalHistoryItems v' - totalHistoryItems v)).
Proof.
  destruct (shelfFetch u) as [docs|m] eqn:Hs.
  - destruct (historyFetch u) as [hist|m] eqn:Hh.
    + destruct (processUser_fetched now u docs hist v Hs Hh)
        as (v' & Hv & H1 & H2 & H3).
      exists v'. split; [exact Hv |]. split; [lia | intros _; lia].
    + rewrite (processUser_history_fails now u docs m v Hs Hh).
      eexists; split; [reflexivity |]. simpl. split; [lia |].
      intros H. destruct (H docs eq_refl) as [hist Hx]. discriminate.
  - rewrite (processUser_shelf_fails now u m v Hs).
    eexists; split; [reflexivity |]. split; [lia | intros _; lia].
Qed.

Lemma sfor_processUser (now : Z) (users : list UserEntry) (v : DashVars) :
  exists v', sfor users (processUser parseDate now) v = (v', Normal tt)
    /\ totalScans v' - totalScans v
       <= (totalShelfItems v' - totalShelfItems v)
          + (totalHistoryItems v' - totalHistoryItems v)
    /\ (Forall historyFollowsShelf users ->
        totalScans v' - totalScans v
        = (totalShelfItems v' - totalShelfItems v)
          + (totalHistoryItems v' - totalHistoryItems v)).
Proof.
  revert v. induction users as [|u users IH]; intros v; simpl.
  - exists v. split; [reflexivity |]. split; [lia | intros _; lia].
  - unfold sbind. destruct (processUser_completes now u v) as (v1 & -> & H1 & H2).
    destruct (IH v1) as (v2 & -> & H3 & H4).
    exists v2. split; [reflexivity |]. split; [lia |].
    intros HF. inversion HF as [|? ? Hu Hrest]; subst.
    specialize (H2 Hu). specialize (H4 Hrest). lia.
Qed.

(** When no history fetch fails after its shelf fetch succeeded, the total
    of scans is the sum of the other two totals. *)
Lemma aggregate_totals (now : Z) (users : list UserEntry) :
  Forall historyFollowsShelf users ->
  totalScans (aggregate parseDate now users)
  = totalShelfItems (aggregate parseDate now users)
    + totalHistoryItems (aggregate parseDate now users).
Proof.
  intros HF. unfold aggregate.
  destruct (sfor_processUser now users dashVars0) as (v' & -> & _ & H).
  specialize (H HF). simpl in *. lia.
Qed.

(** C2. With one user whose shelf of two documents is fetched and whose
    history fetch fails, the request succeeds with status 200, and the
    failed user still contributes 2 to [totalShelfItems] (and to
    [papayasOnShelf]) while contributing nothing to [totalHistoryItems] and
    [totalScans]: the shelf count is added before the history is fetched. *)
Theorem dashboard_failed_user_keeps_shelf_count :
  exists body,
    dashboardStats parseDate 1700000000000 (Normal [userHistoryDown]) = Json 200 body
    /\ r_totalShelfItems body = 2 /\ r_papayasOnShelf body = 2
    /\ r_totalHistoryItems body = 0 /\ r_totalScans body = 0.
Proof. eexists. split; [reflexivity |]. repeat split. Qed.

(** C3. With one user fetched in full (one shelf and one history document)
    and one user whose history fetch fails after a shelf of two documents,
    the summary has [totalScans = 2] but [totalShelfItems = 3] and
    [totalHistoryItems = 1]. *)
Theorem dashboard_total_scans_not_the_sum :
  exists body,
    dashboardStats parseDate 1700000000000 (Normal [userFetched; userHistoryDown])
      = Json 200 body
    /\ r_totalScans body = 2 /\ r_totalShelfItems body = 3
    /\ r_totalHistoryItems body = 1
    /\ r_totalScans body <> r_totalShelfItems body + r_totalHistoryItems body.
Proof. eexists. split; [reflexivity |]. repeat split. discriminate. Qed.

End DashboardProperties.

(* ===================================================================== *)
(** ** DELETE /api/users/delete/:userId *)
(* ===================================================================== *)

Lemma elem_of_docIdsOf (userId d : string) (coll : gmap (string * string) Document) :
  d ∈ docIdsOf userId coll <-> is_Some (coll !! (userId, d)).
Proof.
  unfold docIdsOf. rewrite list_elem_of_fmap. split.
  - intros ([[u d'] doc] & -> & Hin). simpl.
    apply elem_of_map_to_list, map_lookup_filter_Some in Hin.
    destruct Hin as [Hl Hu]. simpl in Hu. subst u. eauto.
  - intros [doc Hdoc]. exists (userId, d, doc). split; [reflexivity |].
    apply elem_of_map_to_list, map_lookup_filter_Some. split; [exact Hdoc | reflexivity].
Qed.

Lemma lookup_foldl_delete (userId : string) (docs : list string)
      (coll : gmap (string * string) Document) (u e : string) :
  foldl (fun m d => delete (userId, d) m) coll docs !! (u, e)
  = if decide (u = userId /\ e ∈ docs) then None else coll !! (u, e).
Proof.
  revert coll. induction docs as [|d docs IH]; intros coll; simpl.
  - destruct (decide (u = userId /\ e ∈ [])) as [[_ H]|_]; [inversion H | reflexivity].
  - rewrite IH.
    destruct (decide (u = userId /\ e ∈ docs)) as [[Hu He]|Hn];
      destruct (decide (u = userId /\ e ∈ d :: docs)) as [[Hu' He']|Hn'].
    + reflexivity.
    + exfalso. apply Hn'. split; [exact Hu | apply elem_of_cons; right; exact He].
    + apply elem_of_cons in He'. destruct He' as [-> | He'].
      * subst u. apply lookup_delete_eq.
      * exfalso. apply Hn. split; assumption.
    + apply lookup_delete_ne. intros Heq. inversion Heq; subst.
      apply Hn'. split; [reflexivity | apply elem_of_cons; left; reflexivity].
Qed.

Lemma foldl_removeShelfDoc (userId : string) (docs : list string) (s : Store) :
  foldl (fun s d => removeShelfDoc userId d s) s docs
  = mkStore (users s) (foldl (fun m d => delete (userId, d) m) (shelf s) docs)
            (history s) (accounts s).
Proof.
  revert s. induction docs as [|d docs IH]; intros s; simpl.
  - destruct s; reflexivity.
  - rewrite IH. reflexivity.
Qed.

Lemma foldl_removeHistoryDoc (userId : string) (docs : list string) (s : Store) :
  foldl (fun s d => removeHistoryDoc userId d s) s docs
  = mkStore (users s) (shelf s)
            (foldl (fun m d => delete (userId, d) m) (history s) docs) (accounts s).
Proof.
  revert s. induction docs as [|d docs IH]; intros s; simpl.
  - destruct s; reflexivity.
  - rewrite IH. reflexivity.
Qed.

Section DeleteUserProperties.

Variable faulty : StoreOp -> option string.

Section Batch.

Variable mk : string -> StoreOp.
Variable eff : string -> Store -> Store.
Hypothesis mk_doc : forall d, isDocDelete (mk d).

Lemma issueAll_writes (docs : list string) (w : World) :
  exists l,
    writes (issueAll docs (fun d => mutate faulty (mk d) (eff d)) w).1 = writes w ++ l
    /\ Forall isDocDelete l.
Proof.
  revert w. induction docs as [|d docs IH]; intros w; simpl.
  - exists []. split; [now rewrite app_nil_r | constructor].
  - unfold mutate at 1. destruct (faulty (mk d)) as [m|].
    + destruct (IH w) as (l & Hl & HF).
      destruct (issueAll docs _ w) as [w2 rs]. simpl in *. eauto.
    + destruct (IH (mkWorld (eff d (store w)) (writes w ++ [mk d]))) as (l & Hl & HF).
      destruct (issueAll docs _ _) as [w2 rs]. simpl in *.
      exists (mk d :: l). split; [rewrite Hl, <- app_assoc; reflexivity |].
      constructor; [apply mk_doc | exact HF].
Qed.

Lemma issueAll_resolved (docs : list string) (w : World) :
  promiseAll (issueAll docs (fun d => mutate faulty (mk d) (eff d)) w).2 = Normal tt ->
  (issueAll docs (fun d => mutate faulty (mk d) (eff d)) w).1
  = mkWorld (foldl (fun s d => eff d s) (store w) docs) (writes w ++ (mk <$> docs)).
Proof.
  revert w. induction docs as [|d docs IH]; intros w; simpl.
  - intros _. rewrite app_nil_r. destruct w; reflexivity.
  - unfold mutate at 1 3. destruct (faulty (mk d)) as [m|].
    + destruct (issueAll docs _ w) as [w2 rs]. simpl. discriminate.
    + specialize (IH (mkWorld (eff d (store w)) (writes w ++ [mk d]))).
      destruct (issueAll docs _ _) as [w2 rs]. simpl in *.
      intros H. rewrite (IH H), <- app_assoc. reflexivity.
Qed.

Lemma issueAll_rejected (docs : list string) (w : World) (m : string) :
  promiseAll (issueAll docs (fun d => mutate faulty (mk d) (eff d)) w).2 = Throw m ->
  exists d, faulty (mk d) = Some m.
Proof.
  revert w. induction docs as [|d docs IH]; intros w; simpl.
  - discriminate.
  - unfold mutate at 1. destruct (faulty (mk d)) as [m'|] eqn:E.
    + destruct (issueAll docs _ w) as [w2 rs]. simpl.
      intros H. exists d. congruence.
    + specialize (IH (mkWorld (eff d (store w)) (writes w ++ [mk d]))).
      destruct (issueAll docs _ _) as [w2 rs]. simpl in *. exact IH.
Qed.

(** A batch either resolves with every document deleted, in the order of
    the snapshot, or rejects, because one of its deletes failed, having
    deleted documents of the sub-collections only. *)
Lemma deleteAll_outcome (docs : list string) (w : World) :
  deleteAll docs (fun d => mutate faulty (mk d) (eff d)) w
    = (mkWorld (foldl (fun s d => eff d s) (store w) docs) (writes w ++ (mk <$> docs)),
       Normal tt)
  \/ exists w' m l,
       deleteAll docs (fun d => mutate faulty (mk d) (eff d)) w = (w', Throw m)
       /\ writes w' = writes w ++ l /\ Forall isDocDelete l
       /\ exists op, faulty op = Some m.
Proof.
  unfold deleteAll.
  pose proof (issueAll_writes docs w) as (l & Hl & HF).
  pose proof (issueAll_resolved docs w) as Hr.
  pose proof (issueAll_rejected docs w) as Hj.
  destruct (issueAll docs _ w) as [w' rs]. simpl in *.
  destruct (promiseAll rs) as [[]|m].
  - left. rewrite (Hr eq_refl). reflexivity.
  - right. exists w', m, l. destruct (Hj m eq_refl) as [d Hd]. eauto.
Qed.

End Batch.

Lemma deleteUser_outcome (userId : string) (w : World) :
  Outcome faulty userId w (deleteUser faulty userId w).
Proof.
  unfold deleteUser, stry. unfold sbind at 1. unfold fetch at 1.
  destruct (faulty (GetUserDoc userId)) as [m|] eqn:F1.
  { apply (Kept _ _ _ _ [] 500 m); simpl;
      [reflexivity | now rewrite app_nil_r | constructor | right; eauto]. }
  destruct (users (store w) !! userId) as [userData|] eqn:Huser.
  2:{ apply (Kept _ _ _ _ [] 404 "User not found"); simpl;
        [reflexivity | now rewrite app_nil_r | constructor | left; auto]. }
  unfold sbind at 1. unfold fetch at 1.
  destruct (faulty (GetShelf userId)) as [m|] eqn:F2.
  { apply (Kept _ _ _ _ [] 500 m); simpl;
      [reflexivity | now rewrite app_nil_r | constructor | right; eauto]. }
  unfold sbind at 1.
  destruct (deleteAll_outcome (DeleteShelfDoc userId) (removeShelfDoc userId)
              (fun d => I) (docIdsOf userId (shelf (store w))) w)
    as [-> | (w1 & m & l & -> & Hw1 & HF1 & Hop1)].
  2:{ apply (Kept _ _ _ _ l 500 m); simpl;
        [reflexivity | exact Hw1 | exact HF1 | right; auto]. }
  rewrite foldl_removeShelfDoc.
  unfold sbind at 1. unfold fetch at 1.
  destruct (faulty (GetHistory userId)) as [m|] eqn:F3.
  { apply (Kept _ _ _ _ (shelfDeletes userId (store w)) 500 m); simpl;
      [reflexivity | reflexivity | | right; eauto].
    apply Forall_fmap, Forall_forall. intros; exact I. }
  cbn [store history].
  unfold sbind at 1.
  match goal with
  | |- context [deleteAll ?docs _ ?w0] =>
      destruct (deleteAll_outcome (DeleteHistoryDoc userId) (removeHistoryDoc userId)
                  (fun d => I) docs w0)
        as [-> | (w2 & m & l & -> & Hw2 & HF2 & Hop2)]
  end.
  2:{ apply (Kept _ _ _ _ (shelfDeletes userId (store w) ++ l) 500 m); simpl;
        [reflexivity | rewrite Hw2; simpl; now rewrite app_assoc | | right; auto].
      apply Forall_app. split; [| exact HF2].
      apply Forall_fmap, Forall_forall. intros; exact I. }
  unfold sbind at 1. unfold mutate at 1.
  destruct (faulty (DeleteUserDoc userId)) as [m|] eqn:F4.
  { cbn [store writes].
    apply (Kept _ _ _ _ (shelfDeletes userId (store w) ++ historyDeletes userId (store w))
                500 m); simpl;
      [reflexivity | now rewrite app_assoc | | right; eauto].
    apply Forall_app. split; apply Forall_fmap, Forall_forall; intros; exact I. }
  cbn [store writes]. rewrite foldl_removeHistoryDoc. cbn [users shelf history accounts].
  assert (Hp : forall a,
            let s := mkStore (delete userId (users (store w)))
                       (foldl (fun m d => delete (userId, d) m) (shelf (store w))
                          (docIdsOf userId (shelf (store w))))
                       (foldl (fun m d => delete (userId, d) m) (history (store w))
                          (docIdsOf userId (history (store w)))) a in
            users s = users (purged userId (store w))
            /\ shelf s = shelf (purged userId (store w))
            /\ history s = history (purged userId (store w))).
  { intros a. unfold purged. rewrite foldl_removeShelfDoc, foldl_removeHistoryDoc.
    simpl. repeat split. }
  unfold sbind, authDeleteUser, sret, removeUserDoc. cbn [store writes users shelf history accounts].
  destruct (decide (userId ∈ accounts (store w))) as [Hin|Hout].
  - unfold mutate. destruct (faulty (DeleteAccount userId)) as [m|].
    + apply (Removed _ _ _ _ userData []); cbn [fst snd store writes];
        [exact Huser | reflexivity | unfold shelfDeletes, historyDeletes;
          now rewrite <- !app_assoc | now left | apply Hp].
    + apply (Removed _ _ _ _ userData [DeleteAccount userId]); cbn [fst snd store writes];
        [exact Huser | reflexivity | unfold shelfDeletes, historyDeletes;
          now rewrite <- !app_assoc | now right | apply Hp].
  - apply (Removed _ _ _ _ userData []); cbn [fst snd store writes];
      [exact Huser | reflexivity | unfold shelfDeletes, historyDeletes;
        now rewrite <- !app_assoc | now left | apply Hp].
Qed.

Lemma docDelete_not_user (l : list StoreOp) (i : nat) (userId : string) :
  Forall isDocDelete l -> l !! i = Some (DeleteUserDoc userId) -> False.
Proof.
  intros HF Hi. exact (Forall_lookup_1 _ _ _ _ HF Hi).
Qed.

(** In the log of a complete run the user document goes after every
    document of the two sub-collections. *)
Lemma user_delete_position (A B tail : list StoreOp) (userId : string) (i : nat) :
  Forall isDocDelete A -> Forall isDocDelete B ->
  (A ++ B ++ DeleteUserDoc userId :: tail) !! i = Some (DeleteUserDoc userId) ->
  (length A + length B <= i)%nat.
Proof.
  intros HA HB Hi.
  destruct (decide (i < length A)%nat) as [Hlt|Hge].
  - rewrite lookup_app_l in Hi by exact Hlt.
    destruct (docDelete_not_user A i userId HA Hi).
  - rewrite lookup_app_r in Hi by lia.
    destruct (decide (i - length A < length B)%nat) as [Hlt|Hge'].
    + rewrite lookup_app_l in Hi by exact Hlt.
      destruct (docDelete_not_user B _ userId HB Hi).
    + lia.
Qed.

Lemma purged_no_documents (userId d : string) (s : Store) :
  shelf (purged userId s) !! (userId, d) = None
  /\ history (purged userId s) !! (userId, d) = None
  /\ users (purged userId s) !! userId = None.
Proof.
  unfold purged. rewrite foldl_removeShelfDoc, foldl_removeHistoryDoc. simpl.
  rewrite !lookup_foldl_delete, lookup_delete_eq.
  repeat split.
  - destruct (decide _) as [_|Hn]; [reflexivity |].
    destruct (shelf s !! (userId, d)) eqn:E; [| reflexivity].
    exfalso. apply Hn. split; [reflexivity |]. apply elem_of_docIdsOf. eauto.
  - destruct (decide _) as [_|Hn]; [reflexivity |].
    destruct (history s !! (userId, d)) eqn:E; [| reflexivity].
    exfalso. apply Hn. split; [reflexivity |]. apply elem_of_docIdsOf. eauto.
Qed.

(** C8. From a store [s], with an empty record of mutations:
    - whenever the user document is deleted, every shelf document and every
      history document of the user that [s] held was deleted earlier, and
      the store then holds no shelf document, no history document and no
      user document of that user;
    - when no operation fails and the user document exists, the user
      document is deleted and the answer is the success body;
    - when the user document does not exist the store is left as it was and
      nothing was mutated, and the answer is 404 "User not found" (the read
      of the document having succeeded). *)
Theorem deleteUser_documents_first (userId : string) (s : Store) :
  let run := deleteUser faulty userId (mkWorld s []) in
  (forall i, writes run.1 !! i = Some (DeleteUserDoc userId) ->
     (forall d, is_Some (shelf s !! (userId, d)) ->
        exists j, (j < i)%nat /\ writes run.1 !! j = Some (DeleteShelfDoc userId d))
     /\ (forall d, is_Some (history s !! (userId, d)) ->
        exists j, (j < i)%nat /\ writes run.1 !! j = Some (DeleteHistoryDoc userId d))
     /\ (forall d, shelf (store run.1) !! (userId, d) = None
                   /\ history (store run.1) !! (userId, d) = None)
     /\ users (store run.1) !! userId = None)
  /\ (forall userData, users s !! userId = Some userData ->
      (forall op, faulty op = None) ->
      run.2 = Normal (Json 200 (mkDeleted userId userData))
      /\ exists i, writes run.1 !! i = Some (DeleteUserDoc userId))
  /\ (users s !! userId = None ->
      run.1 = mkWorld s []
      /\ (faulty (GetUserDoc userId) = None ->
          run.2 = Normal (JsonError 404 "User not found" None))).
Proof.
  intros run. split; [| split].
  - intros i Hi. subst run.
    destruct (deleteUser_outcome userId (mkWorld s [])) as
      [l status error Hresp Hlog Hdocs Hwhy
      | userData tail Huser Hresp Hlog Htail (Hu & Hs & Hh)].
    + rewrite Hlog in Hi. simpl in Hi.
      destruct (docDelete_not_user l i userId Hdocs Hi).
    + simpl in Hlog, Huser, Hu, Hs, Hh. rewrite Hlog in Hi. rewrite Hlog.
      assert (HA : Forall isDocDelete (shelfDeletes userId s))
        by (apply Forall_fmap, Forall_forall; intros; exact I).
      assert (HB : Forall isDocDelete (historyDeletes userId s))
        by (apply Forall_fmap, Forall_forall; intros; exact I).
      pose proof (user_delete_position _ _ _ _ _ HA HB Hi) as Hpos.
      destruct (purged_no_documents userId userId s) as (_ & _ & Hnu).
      split; [| split; [| split]].
      * intros d Hd. apply elem_of_docIdsOf, list_elem_of_lookup in Hd.
        destruct Hd as [j Hj]. exists j.
        assert (Hlt : (j < length (shelfDeletes userId s))%nat).
        { unfold shelfDeletes. rewrite length_fmap. eapply lookup_lt_Some, Hj. }
        split; [lia |]. rewrite lookup_app_l by exact Hlt.
        unfold shelfDeletes. rewrite list_lookup_fmap, Hj. reflexivity.
      * intros d Hd. apply elem_of_docIdsOf, list_elem_of_lookup in Hd.
        destruct Hd as [j Hj]. exists (length (shelfDeletes userId s) + j)%nat.
        assert (Hlt : (j < length (historyDeletes userId s))%nat).
        { unfold historyDeletes. rewrite length_fmap. eapply lookup_lt_Some, Hj. }
        split; [lia |]. rewrite lookup_app_r by lia.
        replace (length (shelfDeletes userId s) + j - length (shelfDeletes userId s))%nat
          with j by lia.
        rewrite lookup_app_l by exact Hlt.
        unfold historyDeletes. rewrite list_lookup_fmap, Hj. reflexivity.
      * intros d. rewrite Hs, Hh.
        destruct (purged_no_documents userId d s) as (H1 & H2 & _). auto.
      * rewrite Hu. exact Hnu.
  - intros userData Huser Hok. subst run.
    destruct (deleteUser_outcome userId (mkWorld s [])) as
      [l status error Hresp Hlog Hdocs Hwhy
      | userData' tail Huser' Hresp Hlog Htail Hstore].
    + exfalso. simpl in Hwhy. destruct Hwhy as [[_ Hn] | [_ [op Hop]]].
      * congruence.
      * rewrite Hok in Hop. discriminate.
    + simpl in Huser'. assert (userData' = userData) by congruence. subst userData'.
      split; [exact Hresp |].
      exists (length (shelfDeletes userId s) + length (historyDeletes userId s))%nat.
      rewrite Hlog. simpl.
      rewrite lookup_app_r by lia.
      replace (length (shelfDeletes userId s) + length (historyDeletes userId s)
               - length (shelfDeletes userId s))%nat
        with (length (historyDeletes userId s) + 0)%nat by lia.
      rewrite lookup_app_r by lia.
      replace (length (historyDeletes userId s) + 0 - length (historyDeletes userId s))%nat
        with 0%nat by lia.
      reflexivity.
  - intros Hnone. subst run.
    unfold deleteUser, stry, sbind, fetch, sret. simpl.
    destruct (faulty (GetUserDoc userId)); simpl.
    + split; [reflexivity | discriminate].
    + rewrite Hnone. split; reflexivity.
Qed.

End DeleteUserProperties.

Example deleteUser_demo :
  deleteUser noFaults "u1" (mkWorld demoStore [])
  = (mkWorld (mkStore ∅ {[ ("u2", "d9") := papaya "d9" 1699980000000 ]} ∅ ∅)
             [DeleteShelfDoc "u1" "d1"; DeleteHistoryDoc "u1" "h1";
              DeleteUserDoc "u1"; DeleteAccount "u1"],
     Normal (Json 200 (mkDeleted "u1" (Some "ana@example.com")))).
Proof. vm_compute. reflexivity. Qed.

Example deleteUser_unknown :
  deleteUser noFaults "u7" (mkWorld demoStore [])
  = (mkWorld demoStore [], Normal (JsonError 404 "User not found" None)).
Proof. vm_compute. reflexivity. Qed.

(** When a delete of the batch fails the user document stays. *)
Example deleteUser_history_fault :
  (deleteUser historyDeleteFails "u1" (mkWorld demoStore [])).2
    = Normal (JsonError 500 "UNAVAILABLE" None)
  /\ writes (deleteUser historyDeleteFails "u1" (mkWorld demoStore [])).1
     = [DeleteShelfDoc "u1" "d1"].
Proof. split; vm_compute; reflexivity. Qed.

Lemma deleteUser_documents_first_witness :
  (deleteUser noFaults "u1" (mkWorld demoStore [])).2
    = Normal (Json 200 (mkDeleted "u1" (Some "ana@example.com")))
  /\ (deleteUser noFaults "u7" (mkWorld demoStore [])).1 = mkWorld demoStore [].
Proof.
  split.
  - apply (proj1 (proj2 (deleteUser_documents_first noFaults "u1" demoStore))
             (Some "ana@example.com")).
    + vm_compute. reflexivity.
    + intros op. reflexivity.
  - apply (proj2 (proj2 (deleteUser_documents_first noFaults "u7" demoStore))).
    vm_compute. reflexivity.
Defined.

(* ===================================================================== *)
(** * Further properties of the helpers *)
(* ===================================================================== *)

(** ** calculateFreshnessDistribution as a count *)

Lemma countClass_cons (r : Ripeness) (scan : Scan) (scans : list Scan) :
  countClass r (scan :: scans)
  = (if decide (classify (freshness scan) = r) then 1 else 0) + countClass r scans.
Proof.
  unfold countClass. rewrite filter_cons.
  destruct (decide (classify (freshness scan) = r)); simpl length; lia.
Qed.

Lemma fold_tally_counts (scans : list Scan) (d : Distribution) :
  fold_left tally_step scans d
  = mkDist (unripe d + countClass Unripe scans) (ripe d + countClass Ripe scans)
           (overripe d + countClass Overripe scans).
Proof.
  revert d. induction scans as [|scan scans IH]; intros d.
  - destruct d. unfold countClass. simpl. f_equal; lia.
  - simpl. rewrite IH, !countClass_cons. unfold tally_step.
    destruct (classify (freshness scan)); simpl;
      repeat (destruct (decide _) as [?|?]; try discriminate; try congruence);
      f_equal; lia.
Qed.

Lemma tally_counts (scans : list Scan) :
  tally scans
  = mkDist (countClass Unripe scans) (countClass Ripe scans) (countClass Overripe scans).
Proof. unfold tally. rewrite fold_tally_counts. reflexivity. Qed.

(** X1. The distribution of a non-empty list of scans holds, for each class,
    the number of scans whose label the classifier puts in that class; the
    empty list gives {1, 1, 1}. *)
Theorem calculateFreshnessDistribution_counts (scans : list Scan) :
  calculateFreshnessDistribution scans
  = match scans with
    | [] => mkDist 1 1 1
    | _ => mkDist (countClass Unripe scans) (countClass Ripe scans)
                  (countClass Overripe scans)
    end.
Proof.
  unfold calculateFreshnessDistribution.
  destruct (tally_total scans) as [Ht Hn].
  destruct (allZero (tally scans)) eqn:E.
  - apply (allZero_total _ Hn) in E. rewrite Ht in E.
    destruct scans; [reflexivity | simpl in E; lia].
  - destruct scans as [|scan scans].
    + discriminate.
    + apply tally_counts.
Qed.

Lemma countClass_Permutation (r : Ripeness) (scans scans' : list Scan) :
  scans ≡ₚ scans' -> countClass r scans = countClass r scans'.
Proof. intros H. unfold countClass. now rewrite H. Qed.

Lemma countClass_app (r : Ripeness) (a b : list Scan) :
  countClass r (a ++ b) = countClass r a + countClass r b.
Proof. unfold countClass. rewrite filter_app, length_app. lia. Qed.

(** X2. The distribution does not depend on the order of the scans. *)
Theorem calculateFreshnessDistribution_order (scans scans' : list Scan) :
  scans ≡ₚ scans' ->
  calculateFreshnessDistribution scans = calculateFreshnessDistribution scans'.
Proof.
  intros H. rewrite !calculateFreshnessDistribution_counts.
  destruct scans as [|x xs], scans' as [|y ys].
  - reflexivity.
  - apply Permutation_nil_l in H. discriminate.
  - apply Permutation_nil_r in H. discriminate.
  - now rewrite !(countClass_Permutation _ _ _ H).
Qed.

(** X3. The distribution of two non-empty lists put together is the sum of
    their distributions. *)
Theorem calculateFreshnessDistribution_app (a b : list Scan) :
  a <> [] -> b <> [] ->
  calculateFreshnessDistribution (a ++ b)
  = addDist (calculateFreshnessDistribution a) (calculateFreshnessDistribution b).
Proof.
  intros Ha Hb. rewrite !calculateFreshnessDistribution_counts.
  destruct a as [|x a]; [contradiction |]. destruct b as [|y b]; [contradiction |].
  change ((x :: a) ++ y :: b) with (x :: (a ++ y :: b)). cbv iota.
  change (x :: (a ++ y :: b)) with ((x :: a) ++ y :: b).
  rewrite !countClass_app. reflexivity.
Qed.

(** ** calculateWeeklyScans as a count *)

Section WeeklyCounts.

Variable parseDate : string -> Date.

Lemma countWeek_cons (now k : Z) (scan : Scan) (scans : list Scan) :
  countWeek parseDate now k (scan :: scans)
  = (if decide (weekOf parseDate now scan = Some k) then 1 else 0)
    + countWeek parseDate now k scans.
Proof.
  unfold countWeek. rewrite filter_cons.
  destruct (decide (weekOf parseDate now scan = Some k)); simpl length; lia.
Qed.

Lemma countWeek_nonneg (now k : Z) (scans : list Scan) :
  0 <= countWeek parseDate now k scans.
Proof. unfold countWeek. lia. Qed.

(** One step of the loop on four integer counters, for a scan that is not
    ahead of the clock: the counter of the scan's week goes up by one. *)
Lemma weekly_step_counts (now c0 c1 c2 c3 : Z) (scan : Scan) :
  notAhead parseDate now scan ->
  weekly_step parseDate now
    [Some (Int c0); Some (Int c1); Some (Int c2); Some (Int c3)] scan
  = Normal [Some (Int (c0 + countWeek parseDate now 3 [scan]));
            Some (Int (c1 + countWeek parseDate now 2 [scan]));
            Some (Int (c2 + countWeek parseDate now 1 [scan]));
            Some (Int (c3 + countWeek parseDate now 0 [scan]))].
Proof.
  intros Hs. rewrite !countWeek_cons. unfold countWeek, weekOf, weekly_step.
  simpl filter. simpl length.
  destruct (truthy (anchorOf scan)) eqn:E.
  2:{ repeat (destruct (decide _) as [?|?]; try discriminate).
      repeat f_equal; lia. }
  destruct (Hs E) as (date & -> & Hd). simpl.
  destruct date as [d|]; simpl.
  2:{ repeat (destruct (decide _) as [?|?]; try discriminate).
      repeat f_equal; lia. }
  specialize (Hd d eq_refl).
  assert (Hk : 0 <= (now - d) / msPerWeek)
    by (apply Z.div_pos; [lia | reflexivity]).
  set (k := (now - d) / msPerWeek) in *.
  destruct (Z.ltb_spec k 4).
  - assert (Hc : k = 0 \/ k = 1 \/ k = 2 \/ k = 3) by lia.
    destruct Hc as [-> | [-> | [-> | ->]]]; unfold array_incr; simpl;
      repeat (destruct (decide _) as [?|?]; try discriminate; try congruence);
      repeat f_equal; lia.
  - repeat (destruct (decide _) as [Heq|?]; [inversion Heq; lia |]).
    repeat f_equal; lia.
Qed.

Lemma four_counters (a0 a1 a2 a3 b0 b1 b2 b3 : Z) :
  a0 = b0 -> a1 = b1 -> a2 = b2 -> a3 = b3 ->
  @Normal JsArray [Some (Int a0); Some (Int a1); Some (Int a2); Some (Int a3)]
  = Normal [Some (Int b0); Some (Int b1); Some (Int b2); Some (Int b3)].
Proof. intros -> -> -> ->. reflexivity. Qed.

Lemma countWeek_nil (now k : Z) : countWeek parseDate now k [] = 0.
Proof. reflexivity. Qed.

Lemma forEach_weekly_counts (now : Z) (scans : list Scan) (c0 c1 c2 c3 : Z) :
  Forall (notAhead parseDate now) scans ->
  forEachC (weekly_step parseDate now) scans
    [Some (Int c0); Some (Int c1); Some (Int c2); Some (Int c3)]
  = Normal [Some (Int (c0 + countWeek parseDate now 3 scans));
            Some (Int (c1 + countWeek parseDate now 2 scans));
            Some (Int (c2 + countWeek parseDate now 1 scans));
            Some (Int (c3 + countWeek parseDate now 0 scans))].
Proof.
  revert c0 c1 c2 c3. induction scans as [|scan scans IH]; intros c0 c1 c2 c3 Hs.
  - rewrite !countWeek_nil. simpl. apply four_counters; lia.
  - inversion Hs as [|? ? Hscan Hrest]; subst.
    simpl. rewrite (weekly_step_counts now c0 c1 c2 c3 scan Hscan). simpl.
    rewrite (IH _ _ _ _ Hrest).
    rewrite !(countWeek_cons now _ scan scans), !(countWeek_cons now _ scan []),
      !countWeek_nil.
    apply four_counters; lia.
Qed.

(** X4. For a non-empty list of scans none of which is dated after the clock
    reading, the result has the four entries for 3, 2, 1 and 0 weeks ago, in
    this order, and each is the number of scans that fall in that week,
    raised to 1 when there is none. Scans of no week (no anchor, an invalid
    date, four weeks old or older) are counted nowhere. *)
Theorem calculateWeeklyScans_counts (now : Z) (scans : list Scan) :
  scans <> [] -> Forall (notAhead parseDate now) scans ->
  calculateWeeklyScans parseDate now scans
  = Normal [Some (Int (Z.max 1 (countWeek parseDate now 3 scans)));
            Some (Int (Z.max 1 (countWeek parseDate now 2 scans)));
            Some (Int (Z.max 1 (countWeek parseDate now 1 scans)));
            Some (Int (Z.max 1 (countWeek parseDate now 0 scans)))].
Proof.
  intros Hne Hs. unfold calculateWeeklyScans.
  destruct scans as [|scan scans]; [contradiction |].
  change (length (scan :: scans) =? 0)%nat with false. cbv iota.
  rewrite (forEach_weekly_counts now (scan :: scans) 0 0 0 0 Hs). reflexivity.
Qed.

(** X5. When no scan is dated after the clock reading, the result does not
    depend on the order of the scans. *)
Theorem calculateWeeklyScans_order (now : Z) (scans scans' : list Scan) :
  scans ≡ₚ scans' -> Forall (notAhead parseDate now) scans ->
  calculateWeeklyScans parseDate now scans = calculateWeeklyScans parseDate now scans'.
Proof.
  intros Hp Hs.
  assert (Hs' : Forall (notAhead parseDate now) scans') by now rewrite <- Hp.
  destruct scans as [|x xs].
  - apply Permutation_nil_l in Hp. subst. reflexivity.
  - destruct scans' as [|y ys]; [apply Permutation_nil_r in Hp; discriminate |].
    rewrite (calculateWeeklyScans_counts now (x :: xs)) by (discriminate || exact Hs).
    rewrite (calculateWeeklyScans_counts now (y :: ys)) by (discriminate || exact Hs').
    unfold countWeek. now rewrite !Hp.
Qed.

Lemma stale_notAhead (now : Z) (scan : Scan) :
  stale parseDate now scan -> notAhead parseDate now scan.
Proof.
  intros H E. destruct (H E) as (date & Hd & Hle). exists date. split; [exact Hd |].
  intros d Hdate. specialize (Hle d Hdate). unfold msPerWeek in Hle. lia.
Qed.

Lemma stale_no_week (now k : Z) (scan : Scan) :
  stale parseDate now scan -> k < 4 -> weekOf parseDate now scan <> Some k.
Proof.
  intros H Hk. unfold weekOf. destruct (truthy (anchorOf scan)) eqn:E; [| discriminate].
  destruct (H E) as (date & -> & Hle). destruct date as [d|]; simpl; [| discriminate].
  specialize (Hle d eq_refl). intros Heq. inversion Heq as [Hq].
  assert (4 <= (now - d) / msPerWeek)
    by (apply Z.div_le_lower_bound; [reflexivity | lia]).
  lia.
Qed.

Lemma countWeek_stale (now k : Z) (scans : list Scan) :
  Forall (stale parseDate now) scans -> k < 4 -> countWeek parseDate now k scans = 0.
Proof.
  intros Hs Hk. induction Hs as [|scan scans Hscan Hrest IH].
  - reflexivity.
  - rewrite countWeek_cons, IH.
    destruct (decide _) as [Heq|_]; [| reflexivity].
    destruct (stale_no_week now k scan Hscan Hk Heq).
Qed.

(** X6. A non-empty list of scans that are all undated or at least four
    weeks old gives [1, 1, 1, 1], every bucket being floored, whereas the
    empty list gives the placeholder [2, 5, 8, 12]. *)
Theorem calculateWeeklyScans_all_stale (now : Z) (scans : list Scan) :
  (scans <> [] -> Forall (stale parseDate now) scans ->
   calculateWeeklyScans parseDate now scans
   = Normal [Some (Int 1); Some (Int 1); Some (Int 1); Some (Int 1)])
  /\ calculateWeeklyScans parseDate now []
     = Normal [Some (Int 2); Some (Int 5); Some (Int 8); Some (Int 12)].
Proof.
  split; [| reflexivity]. intros Hne Hs.
  rewrite (calculateWeeklyScans_counts now scans Hne)
    by (eapply Forall_impl; [exact Hs | apply stale_notAhead]).
  rewrite !(countWeek_stale now _ scans Hs) by lia. reflexivity.
Qed.

End WeeklyCounts.

Lemma calculateFreshnessDistribution_order_witness :
  calculateFreshnessDistribution [scannedAt 1; scannedAt 2]
  = calculateFreshnessDistribution [scannedAt 2; scannedAt 1].
Proof.
  apply (calculateFreshnessDistribution_order [scannedAt 1; scannedAt 2]
           [scannedAt 2; scannedAt 1]).
  apply perm_swap.
Defined.

Lemma calculateFreshnessDistribution_app_witness :
  calculateFreshnessDistribution ([scannedAt 1] ++ [scannedAt 2])
  = addDist (calculateFreshnessDistribution [scannedAt 1])
            (calculateFreshnessDistribution [scannedAt 2]).
Proof.
  apply (calculateFreshnessDistribution_app [scannedAt 1] [scannedAt 2]); discriminate.
Defined.

Lemma scannedAt_notAhead (parseDate : string -> Date) (now t : Z) :
  t <= now -> notAhead parseDate now (scannedAt t).
Proof.
  intros H _. exists (Some t). split; [reflexivity |].
  intros d Hd. inversion Hd; subst. exact H.
Qed.

Lemma scannedAt_stale (parseDate : string -> Date) (now t : Z) :
  t + 4 * msPerWeek <= now -> stale parseDate now (scannedAt t).
Proof.
  intros H _. exists (Some t). split; [reflexivity |].
  intros d Hd. inversion Hd; subst. exact H.
Qed.

Lemma calculateWeeklyScans_counts_witness :
  calculateWeeklyScans rejectAll 1700000000000
    [scannedAt 1700000000000; scannedAt 1699000000000]
  = Normal [Some (Int (Z.max 1 (countWeek rejectAll 1700000000000 3
                                  [scannedAt 1700000000000; scannedAt 1699000000000])));
            Some (Int (Z.max 1 (countWeek rejectAll 1700000000000 2
                                  [scannedAt 1700000000000; scannedAt 1699000000000])));
            Some (Int (Z.max 1 (countWeek rejectAll 1700000000000 1
                                  [scannedAt 1700000000000; scannedAt 1699000000000])));
            Some (Int (Z.max 1 (countWeek rejectAll 1700000000000 0
                                  [scannedAt 1700000000000; scannedAt 1699000000000])))].
Proof.
  apply (calculateWeeklyScans_counts rejectAll 1700000000000
           [scannedAt 1700000000000; scannedAt 1699000000000]).
  - discriminate.
  - repeat constructor; apply scannedAt_notAhead; lia.
Defined.

Lemma calculateWeeklyScans_order_witness :
  calculateWeeklyScans rejectAll 1700000000000
    [scannedAt 1700000000000; scannedAt 1699000000000]
  = calculateWeeklyScans rejectAll 1700000000000
      [scannedAt 1699000000000; scannedAt 1700000000000].
Proof.
  apply (calculateWeeklyScans_order rejectAll 1700000000000
           [scannedAt 1700000000000; scannedAt 1699000000000]
           [scannedAt 1699000000000; scannedAt 1700000000000]).
  - apply perm_swap.
  - repeat constructor; apply scannedAt_notAhead; lia.
Defined.

Lemma calculateWeeklyScans_all_stale_witness :
  calculateWeeklyScans rejectAll 1700000000000 [scannedAt 1600000000000]
  = Normal [Some (Int 1); Some (Int 1); Some (Int 1); Some (Int 1)].
Proof.
  apply (proj1 (calculateWeeklyScans_all_stale rejectAll 1700000000000
                  [scannedAt 1600000000000])).
  - discriminate.
  - repeat constructor. apply scannedAt_stale. vm_compute. discriminate.
Defined.

(** ** formatTimeAgo: representations and labels *)

Section TimeLabels.

Variable parseDate : string -> Date.

(** X7. An epoch-seconds object whose [seconds] is not 0 is labelled like the
    store timestamp of the same instant, and a number other than 0 like the
    [Date] of that time value. *)
Theorem formatTimeAgo_same_instant (now n : Z) :
  n <> 0 ->
  formatTimeAgo parseDate now (TsSeconds n)
    = formatTimeAgo parseDate now (TsNative (Normal (dateOfNumber (n * 1000))))
  /\ formatTimeAgo parseDate now (TsNumber n)
     = formatTimeAgo parseDate now (TsDate (dateOfNumber n)).
Proof.
  intros Hn. unfold formatTimeAgo, formatTimeAgo_try, activityTimeOf, truthy, newDate.
  destruct (Z.eqb_spec n 0) as [|_]; [contradiction |]. split; reflexivity.
Qed.

Lemma timeAgoLabel_shape (now t : Z) : TimeLabel (timeAgoLabel now t).
Proof.
  unfold timeAgoLabel. change (1000 * 60) with 60000.
  set (m := (now - t) / 60000).
  destruct (Z.ltb_spec m 1); [constructor |].
  destruct (Z.ltb_spec m 60); [constructor; lia |].
  destruct (Z.ltb_spec m 1440).
  - constructor. split.
    + apply Z.div_le_lower_bound; lia.
    + assert (m / 60 < 24) by (apply Z.div_lt_upper_bound; lia). lia.
  - constructor. apply Z.div_le_lower_bound; lia.
Qed.

(** X8. Whatever the input, the answer is "Recent", "Just now",
    "<n> mins ago" with n from 1 to 59, "<n> hr ago" with n from 1 to 23, or
    "<n> days ago" with n at least 1. *)
Theorem formatTimeAgo_label_shape (now : Z) (timestamp : Timestamp) :
  exists label,
    formatTimeAgo parseDate now timestamp = Normal label /\ TimeLabel label.
Proof.
  destruct (truthy timestamp) eqn:E.
  - rewrite (formatTimeAgo_truthy parseDate now timestamp E).
    destruct (activityTimeOf parseDate timestamp) as [[t|]|m];
      eexists; (split; [reflexivity |]); try constructor.
    apply timeAgoLabel_shape.
  - rewrite (formatTimeAgo_falsy parseDate now timestamp E).
    eexists; split; [reflexivity | constructor].
Qed.

End TimeLabels.

Lemma formatTimeAgo_same_instant_witness :
  formatTimeAgo rejectAll 1700000000000 (TsSeconds 1699997300)
  = formatTimeAgo rejectAll 1700000000000
      (TsNative (Normal (dateOfNumber (1699997300 * 1000)))).
Proof.
  apply (proj1 (formatTimeAgo_same_instant rejectAll 1700000000000 1699997300
                  ltac:(discriminate))).
Defined.

(* ===================================================================== *)
(** * Further properties of GET /api/dashboard/stats *)
(* ===================================================================== *)

Section DashboardLoop.

Variable parseDate : string -> Date.

Lemma shelf_loop_effect (now : Z) (u : UserEntry) (docs : list Document) (v : DashVars) :
  exists acts,
    sfor docs (shelfItemStep parseDate now u) v
    = (mkDashVars (totalScans v) (totalShelfItems v) (totalHistoryItems v)
         (userActivities v ++ acts) (allScans v ++ (scanDataOf u <$> docs)),
       Normal tt)
    /\ length acts = length docs.
Proof.
  revert v. induction docs as [|doc docs IH]; intros v.
  - exists []. simpl. rewrite !app_nil_r. destruct v. split; reflexivity.
  - simpl. unfold sbind at 1. unfold shelfItemStep at 1.
    unfold sbind, assign, await.
    destruct (formatTimeAgo_normal parseDate now
                (ts_or (scannedDate (scanDataOf u doc)) (addedAt (scanDataOf u doc))))
      as [label ->].
    match goal with |- context [sfor docs _ ?v1] => destruct (IH v1) as (acts & -> & Hl) end.
    simpl. eexists (_ :: acts). rewrite <- !app_assoc. simpl.
    split; [reflexivity | simpl; now rewrite Hl].
Qed.

Lemma history_loop_effect (now : Z) (u : UserEntry) (hist : list Document) (v : DashVars) :
  exists acts,
    sfor hist (historyItemStep parseDate now u) v
    = (mkDashVars (totalScans v) (totalShelfItems v) (totalHistoryItems v)
         (userActivities v ++ acts) (allScans v),
       Normal tt)
    /\ length acts = length hist.
Proof.
  revert v. induction hist as [|doc hist IH]; intros v.
  - exists []. simpl. rewrite !app_nil_r. destruct v. split; reflexivity.
  - simpl. unfold sbind at 1. unfold historyItemStep at 1.
    unfold sbind, assign, await.
    destruct (formatTimeAgo_normal parseDate now
                (ts_or (doc_scannedDate doc) (doc_archivedAt doc))) as [label ->].
    match goal with |- context [sfor hist _ ?v1] => destruct (IH v1) as (acts & -> & Hl) end.
    simpl. eexists (_ :: acts). rewrite <- !app_assoc. simpl.
    split; [reflexivity | simpl; now rewrite Hl].
Qed.

(** What one turn of the loop over the users does to the variables. *)
Lemma processUser_effect (now : Z) (u : UserEntry) (v : DashVars) :
  exists acts,
    processUser parseDate now u v
    = (mkDashVars (totalScans v + countedTotal u) (totalShelfItems v + countedShelf u)
         (totalHistoryItems v + countedHistory u)
         (userActivities v ++ acts) (allScans v ++ countedScans u),
       Normal tt)
    /\ Z.of_nat (length acts) = countedTotal u.
Proof.
  unfold countedTotal, countedShelf, countedHistory, countedScans, bothFetched.
  destruct (shelfFetch u) as [docs|m] eqn:Hs.
  - destruct (historyFetch u) as [hist|m] eqn:Hh.
    + unfold processUser, stry.
      unfold sbind at 1, await at 1. rewrite Hs.
      unfold sbind at 1, assign at 1.
      unfold sbind at 1, await at 1. rewrite Hh.
      unfold sbind at 1, assign at 1.
      unfold sbind at 1.
      match goal with |- context [sfor docs _ ?v1] =>
        destruct (shelf_loop_effect now u docs v1) as (a1 & -> & H1) end.
      unfold sbind at 1.
      match goal with |- context [sfor hist _ ?v1] =>
        destruct (history_loop_effect now u hist v1) as (a2 & -> & H2) end.
      unfold assign, addScans, addHistoryItems, addShelfItems. simpl.
      exists (a1 ++ a2). rewrite <- app_assoc. split; [reflexivity |].
      rewrite length_app. lia.
    + rewrite (processUser_history_fails parseDate now u docs m v Hs Hh).
      exists []. unfold addShelfItems. rewrite !app_nil_r, !Z.add_0_r.
      split; reflexivity.
  - rewrite (processUser_shelf_fails parseDate now u m v Hs).
    exists []. rewrite !app_nil_r, !Z.add_0_r. destruct v. split; reflexivity.
Qed.

Lemma users_loop_effect (now : Z) (users : list UserEntry) (v : DashVars) :
  exists acts,
    sfor users (processUser parseDate now) v
    = (mkDashVars (totalScans v + sumOver countedTotal users)
         (totalShelfItems v + sumOver countedShelf users)
         (totalHistoryItems v + sumOver countedHistory users)
         (userActivities v ++ acts)
         (allScans v ++ concat (countedScans <$> users)),
       Normal tt)
    /\ Z.of_nat (length acts) = sumOver countedTotal users.
Proof.
  revert v. induction users as [|u users IH]; intros v.
  - exists []. simpl. rewrite !app_nil_r, !Z.add_0_r. destruct v. split; reflexivity.
  - simpl. unfold sbind at 1.
    destruct (processUser_effect now u v) as (a1 & -> & H1).
    match goal with |- context [sfor users _ ?v1] =>
      destruct (IH v1) as (a2 & -> & H2) end.
    simpl. exists (a1 ++ a2). rewrite <- !app_assoc, !Z.add_assoc.
    split; [reflexivity |]. rewrite length_app. lia.
Qed.

(** After the loop over the users: [totalShelfItems] is the number of
    shelf documents of the users whose shelf was fetched; [totalHistoryItems]
    and [totalScans] count the documents of the users whose shelf and history
    were both fetched; [allScans] holds, in order, one record for every shelf
    document of those users; and there are as many activities as
    [totalScans] says. *)
Theorem aggregate_counts (now : Z) (users : list UserEntry) :
  let v := aggregate parseDate now users in
  totalShelfItems v = sumOver countedShelf users
  /\ totalHistoryItems v = sumOver countedHistory users
  /\ totalScans v = sumOver countedTotal users
  /\ allScans v = concat (countedScans <$> users)
  /\ Z.of_nat (length (userActivities v)) = totalScans v.
Proof.
  unfold aggregate.
  destruct (users_loop_effect now users dashVars0) as (acts & -> & Hl).
  simpl. repeat split; lia.
Qed.

(** A successful answer, read back: the body is built from the variables
    the loop leaves. *)
Lemma dashboardStats_ok (now : Z) (users : list UserEntry) (body : DashboardSummary) :
  dashboardStats parseDate now (Normal users) = Json 200 body ->
  summarize parseDate now (Z.of_nat (length users)) (aggregate parseDate now users)
  = Normal body.
Proof.
  unfold dashboardStats, aggregate. simpl.
  destruct (users_loop_effect now users dashVars0) as (acts & -> & _). simpl.
  destruct (summarize _ _ _ _) as [b|m]; [| discriminate].
  intros H. inversion H. reflexivity.
Qed.

Lemma summarize_fields (now n : Z) (v : DashVars) (body : DashboardSummary) :
  summarize parseDate now n v = Normal body ->
  r_totalUsers body = n /\ r_totalScans body = totalScans v
  /\ r_papayasOnShelf body = totalShelfItems v
  /\ r_totalShelfItems body = totalShelfItems v
  /\ r_totalHistoryItems body = totalHistoryItems v
  /\ r_activeUsers body = Z.of_nat (length (userActivities v))
  /\ r_ripenessDistribution body = calculateFreshnessDistribution (allScans v)
  /\ calculateWeeklyScans parseDate now (allScans v) = Normal (r_weeklyScans body)
  /\ r_recentActivities body
     = (if (0 <? length (take 6 (userActivities v)))%nat
        then take 6 (userActivities v) else [noActivity]).
Proof.
  unfold summarize. destruct (calculateWeeklyScans parseDate now (allScans v)) as [w|m];
    [| discriminate].
  simpl. intros H. inversion H. simpl. repeat split.
Qed.













End DashboardLoop.






(* ===================================================================== *)
(** * GET /api/users/all *)
(* ===================================================================== *)





Lemma sumOver_cons {A} (f : A -> Z) (x : A) (xs : list A) :
  sumOver f (x :: xs) = f x + sumOver f xs.
Proof. reflexivity. Qed.



Section UsersAllDashboard.

Variable parseDate : string -> Date.


End UsersAllDashboard.


(* ===================================================================== *)
(** * GET /api/scans/all *)
(* ===================================================================== *)

Lemma scans_doc_loop (u : UserEntry) (docs : list Document) (allScans : list Scan) :
  sfor docs (fun doc => assign (fun allScans => allScans ++ [scanDataOf u doc])) allScans
  = (allScans ++ (scanDataOf u <$> docs), Normal tt).
Proof.
  revert allScans. induction docs as [|doc docs IH]; intros allScans; simpl.
  - now rewrite app_nil_r.
  - unfold sbind at 1, assign at 1. rewrite IH, <- app_assoc. reflexivity.
Qed.

Lemma scansAllStep_effect (u : UserEntry) (allScans : list Scan) :
  scansAllStep u allScans = (allScans ++ shelfScans u, Normal tt).
Proof.
  unfold scansAllStep, shelfScans, stry. unfold sbind at 1, await.
  destruct (shelfFetch u) as [docs|m].
  - rewrite scans_doc_loop. reflexivity.
  - unfold sret. now rewrite app_nil_r.
Qed.

Lemma scansAll_loop (users : list UserEntry) (allScans : list Scan) :
  sfor users scansAllStep allScans
  = (allScans ++ concat (shelfScans <$> users), Normal tt).
Proof.
  revert allScans. induction users as [|u users IH]; intros allScans; simpl.
  - now rewrite app_nil_r.
  - unfold sbind. rewrite scansAllStep_effect, IH, <- app_assoc. reflexivity.
Qed.

Lemma length_concat_shelfScans (users : list UserEntry) :
  Z.of_nat (length (concat (shelfScans <$> users))) = sumOver countedShelf users.
Proof.
  induction users as [|u users IH]; [reflexivity |].
  rewrite fmap_cons, concat_cons, length_app, Nat2Z.inj_add, IH, sumOver_cons.
  assert (Z.of_nat (length (shelfScans u)) = countedShelf u); [| lia].
  unfold shelfScans, countedShelf.
  destruct (shelfFetch u) as [docs|m]; [rewrite length_fmap |]; reflexivity.
Qed.

Section ScansAllProperties.

Variable sortScans : list Scan -> list Scan.
Hypothesis sortScans_permutes : forall scans, sortScans scans ≡ₚ scans.

(** X16. When the users are listed the answer has status 200; its scans are,
    up to order, one record for every shelf document of every user whose
    shelf was fetched (a user whose shelf fetch fails is skipped; the
    history is not read), and [totalScans] is their number. *)
Theorem scansAll_scans (users : list UserEntry) :
  exists scans,
    scansAll sortScans (Normal users)
      = Json 200 (mkScansBody (sumOver countedShelf users) scans)
    /\ scans ≡ₚ concat (shelfScans <$> users)
    /\ Z.of_nat (length scans) = sumOver countedShelf users.
Proof.
  exists (sortScans (concat (shelfScans <$> users))).
  assert (Hl : Z.of_nat (length (sortScans (concat (shelfScans <$> users))))
               = sumOver countedShelf users).
  { rewrite (Permutation_length (sortScans_permutes _)).
    apply length_concat_shelfScans. }
  split; [| split; [apply sortScans_permutes | exact Hl]].
  unfold scansAll. simpl. rewrite scansAll_loop. simpl. now rewrite Hl.
Qed.

Variable parseDate : string -> Date.

(** X17. On the same users and the same outcomes of the fetches, the
    [totalScans] of /api/scans/all is the [papayasOnShelf] of the
    dashboard. *)
Theorem scansAll_agrees_with_dashboard (now : Z) (users : list UserEntry)
        (scans : ScansBody) (body : DashboardSummary) :
  scansAll sortScans (Normal users) = Json 200 scans ->
  dashboardStats parseDate now (Normal users) = Json 200 body ->
  sb_totalScans scans = r_papayasOnShelf body.
Proof.
  intros Hs Hb. unfold scansAll in Hs. simpl in Hs. rewrite scansAll_loop in Hs.
  simpl in Hs. inversion Hs; subst. simpl.
  rewrite (Permutation_length (sortScans_permutes _)), length_concat_shelfScans.
  apply dashboardStats_ok, summarize_fields in Hb.
  destruct Hb as (_ & _ & H3 & _).
  unfold aggregate in *.
  destruct (users_loop_effect parseDate now users dashVars0) as (acts & Hv & _).
  rewrite Hv in *. simpl in *. lia.
Qed.

End ScansAllProperties.

Lemma scansAll_scans_witness :
  exists scans,
    scansAll (fun l => l) (Normal [userFetched; userHistoryDown])
      = Json 200 (mkScansBody (sumOver countedShelf [userFetched; userHistoryDown]) scans)
    /\ scans ≡ₚ concat (shelfScans <$> [userFetched; userHistoryDown])
    /\ Z.of_nat (length scans) = sumOver countedShelf [userFetched; userHistoryDown].
Proof.
  apply (scansAll_scans (fun l => l)). intros scans. reflexivity.
Defined.

Lemma scansAll_agrees_with_dashboard_witness :
  exists scans body,
    scansAll (fun l => l) (Normal [userFetched; userHistoryDown]) = Json 200 scans
    /\ dashboardStats rejectAll 1700000000000 (Normal [userFetched; userHistoryDown])
       = Json 200 body
    /\ sb_totalScans scans = r_papayasOnShelf body.
Proof.
  eexists. eexists. split; [reflexivity |]. split; [reflexivity |].
  eapply (scansAll_agrees_with_dashboard (fun l => l) (fun scans => reflexivity scans)
            rejectAll 1700000000000 [userFetched; userHistoryDown]); reflexivity.
Defined.

(* ===================================================================== *)
(** * GET /api/users/:userId/shelf and /history *)
(* ===================================================================== *)

Lemma items_loop (docs : list RawDoc) (items : list (gmap string JsValue)) :
  fold_left (fun items doc => items ++ [withId doc]) docs items
  = items ++ (withId <$> docs).
Proof.
  revert items. induction docs as [|doc docs IH]; intros items; simpl.
  - now rewrite app_nil_r.
  - rewrite IH, <- app_assoc. reflexivity.
Qed.

(** X18. When the snapshot is read the answer has status 200 and one item per
    document, in order, with the count equal to their number (0 for a user
    without documents or without a user document: no 404). An item has the
    fields of its document; its [id] is the document id unless the document
    stores a field named [id], which then takes its place. *)
Theorem listItems_items (userId : string) (docs : list RawDoc) :
  exists items,
    listItems userId (Normal docs)
      = Json 200 (mkItemsBody userId (Z.of_nat (length docs)) items)
    /\ length items = length docs
    /\ forall i doc, docs !! i = Some doc ->
         exists item, items !! i = Some item
           /\ item !! "id"
              = Some (default (VString (raw_id doc)) (raw_data doc !! "id"))
           /\ forall k, k <> "id" -> item !! k = raw_data doc !! k.
Proof.
  exists (withId <$> docs). unfold listItems. rewrite items_loop. simpl.
  rewrite length_fmap. split; [reflexivity |]. split; [reflexivity |].
  intros i doc Hi. exists (withId doc).
  split; [rewrite list_lookup_fmap, Hi; reflexivity |].
  unfold withId. split.
  - rewrite lookup_union. destruct (raw_data doc !! "id") as [v|] eqn:E; simpl.
    + rewrite lookup_singleton_eq. reflexivity.
    + rewrite lookup_singleton_eq. reflexivity.
  - intros k Hk. rewrite lookup_union, lookup_singleton_ne by congruence.
    destruct (raw_data doc !! k); reflexivity.
Qed.

(* ===================================================================== *)
(** * Further properties of DELETE /api/users/delete/:userId *)
(* ===================================================================== *)

Section Keeps.

Variable faulty : StoreOp -> option string.
Variable R : World -> World -> Prop.
Hypothesis R_refl : forall w, R w w.
Hypothesis R_trans : forall w1 w2 w3, R w1 w2 -> R w2 w3 -> R w1 w3.

Lemma keeps_sret {A} (a : A) : keeps R (sret a).
Proof. intros w. apply R_refl. Qed.

Lemma keeps_fetch {A} (op : StoreOp) (result : Store -> A) :
  keeps R (fetch faulty op result).
Proof. intros w. unfold fetch. destruct (faulty op); apply R_refl. Qed.

Lemma keeps_mutate (op : StoreOp) (effect : Store -> Store) :
  (faulty op = None -> forall w, R w (mkWorld (effect (store w)) (writes w ++ [op]))) ->
  keeps R (mutate faulty op effect).
Proof.
  intros H w. unfold mutate. destruct (faulty op); [apply R_refl | now apply H].
Qed.

Lemma keeps_sbind {A B} (c : Stmt World A) (k : A -> Stmt World B) :
  keeps R c -> (forall a, keeps R (k a)) -> keeps R (sbind c k).
Proof.
  intros Hc Hk w. unfold sbind. specialize (Hc w).
  destruct (c w) as [w1 [a|m]]; simpl in *; [| exact Hc].
  eapply R_trans; [exact Hc | apply Hk].
Qed.

Lemma keeps_stry {A} (body : Stmt World A) (handler : string -> Stmt World A) :
  keeps R body -> (forall m, keeps R (handler m)) -> keeps R (stry body handler).
Proof.
  intros Hb Hh w. unfold stry. specialize (Hb w).
  destruct (body w) as [w1 [a|m]]; simpl in *; [exact Hb |].
  eapply R_trans; [exact Hb | apply Hh].
Qed.

Lemma keeps_issueAll {A} (docs : list A) (del : A -> Stmt World unit) (w : World) :
  (forall d, keeps R (del d)) -> R w (issueAll docs del w).1.
Proof.
  intros Hd. revert w. induction docs as [|d docs IH]; intros w; simpl.
  - apply R_refl.
  - specialize (Hd d w). destruct (del d w) as [w1 r]. specialize (IH w1).
    destruct (issueAll docs del w1) as [w2 rs]. simpl in *.
    eapply R_trans; eassumption.
Qed.

Lemma keeps_deleteAll {A} (docs : list A) (del : A -> Stmt World unit) :
  (forall d, keeps R (del d)) -> keeps R (deleteAll docs del).
Proof.
  intros Hd w. unfold deleteAll. pose proof (keeps_issueAll docs del w Hd) as H.
  destruct (issueAll docs del w) as [w' rs]. exact H.
Qed.

(** A relation that every single mutation of the handler respects holds
    between the world before and the world after any run of it. *)
Lemma keeps_deleteUser (userId : string) :
  (forall d w, R w (mkWorld (removeShelfDoc userId d (store w))
                      (writes w ++ [DeleteShelfDoc userId d]))) ->
  (forall d w, R w (mkWorld (removeHistoryDoc userId d (store w))
                      (writes w ++ [DeleteHistoryDoc userId d]))) ->
  (forall w, R w (mkWorld (removeUserDoc userId (store w))
                    (writes w ++ [DeleteUserDoc userId]))) ->
  (forall w, R w (mkWorld (removeAccount userId (store w))
                    (writes w ++ [DeleteAccount userId]))) ->
  keeps R (deleteUser faulty userId).
Proof.
  intros Hshelf Hhist Huser Hacc. unfold deleteUser.
  apply keeps_stry; [| intros m; apply keeps_sret].
  apply keeps_sbind; [apply keeps_fetch |].
  intros [userData|]; [| apply keeps_sret].
  apply keeps_sbind; [apply keeps_fetch |]. intros shelfSnapshot.
  apply keeps_sbind.
  { apply keeps_deleteAll. intros d. apply keeps_mutate. intros _. apply Hshelf. }
  intros _. apply keeps_sbind; [apply keeps_fetch |]. intros historySnapshot.
  apply keeps_sbind.
  { apply keeps_deleteAll. intros d. apply keeps_mutate. intros _. apply Hhist. }
  intros _. apply keeps_sbind; [apply keeps_mutate; intros _; apply Huser |].
  intros _. apply keeps_sbind; [| intros _; apply keeps_sret].
  apply keeps_stry; [| intros m; apply keeps_sret].
  intros w. unfold authDeleteUser.
  destruct (decide (userId ∈ accounts (store w))); [| apply R_refl].
  apply keeps_mutate. intros _. apply Hacc.
Qed.

End Keeps.

Lemma sameOthers_refl (userId : string) (s : Store) : sameOthers userId s s.
Proof. repeat split; auto. Qed.

Lemma sameOthers_trans (userId : string) (s1 s2 s3 : Store) :
  sameOthers userId s1 s2 -> sameOthers userId s2 s3 -> sameOthers userId s1 s3.
Proof.
  intros (A1 & A2 & A3 & A4) (B1 & B2 & B3 & B4). repeat split; intros.
  - rewrite B1, A1; auto.
  - rewrite B2, A2; auto.
  - rewrite B3, A3; auto.
  - apply A4; [assumption |]. apply B4; assumption.
  - apply B4; [assumption |]. apply A4; assumption.
Qed.

(** X19. For a route parameter that is a document id (it contains no "/"):
    whatever fails during the request, nothing that belongs to another user
    is touched; the user documents, the shelf and history documents and the
    accounts of all other users are after the request what they were before.
    (A parameter with a "/" is a path to the store, which is keyed here by
    document ids; such a parameter is not covered.) *)
Theorem deleteUser_other_users (faulty : StoreOp -> option string)
        (userId : string) (w : World) :
  slashFree userId ->
  sameOthers userId (store w) (store (deleteUser faulty userId w).1).
Proof.
  intros _.
  apply (keeps_deleteUser faulty
           (fun w w' => sameOthers userId (store w) (store w'))).
  - intros w0. apply sameOthers_refl.
  - intros w1 w2 w3. apply sameOthers_trans.
  - intros d w0. simpl. repeat split; auto.
    intros u e Hu. apply lookup_delete_ne. congruence.
  - intros d w0. simpl. repeat split; auto.
    intros u e Hu. apply lookup_delete_ne. congruence.
  - intros w0. simpl. repeat split; auto.
    intros u Hu. apply lookup_delete_ne. congruence.
  - intros w0. simpl. repeat split; auto.
    + intros Hin. apply elem_of_difference in Hin. tauto.
    + intros Hin. apply elem_of_difference. split; [exact Hin |].
      rewrite elem_of_singleton. assumption.
Qed.

Lemma shrinks_refl (s : Store) : shrinks s s.
Proof. repeat split; reflexivity. Qed.

Lemma shrinks_trans (s1 s2 s3 : Store) : shrinks s1 s2 -> shrinks s2 s3 -> shrinks s1 s3.
Proof.
  intros (A1 & A2 & A3 & A4) (B1 & B2 & B3 & B4).
  repeat split; etransitivity; eassumption.
Qed.

(** X20. The handler only deletes: whatever fails, every user document,
    shelf document, history document and account found in the store after
    the request was there before it, with the same content. *)
Theorem deleteUser_only_deletes (faulty : StoreOp -> option string)
        (userId : string) (w : World) :
  shrinks (store w) (store (deleteUser faulty userId w).1).
Proof.
  apply (keeps_deleteUser faulty (fun w w' => shrinks (store w) (store w'))).
  - intros w0. apply shrinks_refl.
  - intros w1 w2 w3. apply shrinks_trans.
  - intros d w0. simpl. repeat split; try reflexivity. apply delete_subseteq.
  - intros d w0. simpl. repeat split; try reflexivity. apply delete_subseteq.
  - intros w0. simpl. repeat split; try reflexivity. apply delete_subseteq.
  - intros w0. simpl. repeat split; try reflexivity.
    intros u Hin. apply elem_of_difference in Hin. tauto.
Qed.

Lemma replays_refl (w : World) : replays w w.
Proof. exists []. split; [now rewrite app_nil_r | reflexivity]. Qed.

Lemma replays_trans (w1 w2 w3 : World) : replays w1 w2 -> replays w2 w3 -> replays w1 w3.
Proof.
  intros (l1 & A1 & A2) (l2 & B1 & B2). exists (l1 ++ l2). split.
  - rewrite B1, A1, app_assoc. reflexivity.
  - rewrite B2, A2, foldl_app. reflexivity.
Qed.

(** The record of mutations tells how the store changed. *)
Lemma deleteUser_replays (faulty : StoreOp -> option string) (userId : string) (w : World) :
  replays w (deleteUser faulty userId w).1.
Proof.
  apply (keeps_deleteUser faulty replays).
  - apply replays_refl.
  - apply replays_trans.
  - intros d w0. eexists [_]. split; reflexivity.
  - intros d w0. eexists [_]. split; reflexivity.
  - intros w0. eexists [_]. split; reflexivity.
  - intros w0. eexists [_]. split; reflexivity.
Qed.

Lemma docDeletes_keep_users (l : list StoreOp) (s : Store) :
  Forall isDocDelete l -> users (foldl applyOp s l) = users s.
Proof.
  intros H. revert s. induction H as [|op l Hop Hl IH]; intros s; simpl.
  - reflexivity.
  - rewrite IH. destruct op; simpl in *; try contradiction; reflexivity.
Qed.

Lemma users_purged (userId : string) (s : Store) :
  users (purged userId s) = delete userId (users s).
Proof.
  unfold purged. rewrite foldl_removeShelfDoc, foldl_removeHistoryDoc. reflexivity.
Qed.

(** X21. The handler always answers and never raises. With the success
    answer the user document existed and is gone; with any error answer
    (404 or 500) the user documents are exactly what they were. *)
Theorem deleteUser_answer (faulty : StoreOp -> option string) (userId : string) (w : World) :
  exists resp,
    (deleteUser faulty userId w).2 = Normal resp
    /\ match resp with
       | Json _ deleted =>
           users (store w) !! userId = Some (deleted_email deleted)
           /\ users (store (deleteUser faulty userId w).1) = delete userId (users (store w))
       | JsonError _ _ _ =>
           users (store (deleteUser faulty userId w).1) = users (store w)
       end.
Proof.
  destruct (deleteUser_outcome faulty userId w) as
    [l status error Hresp Hlog Hdocs Hwhy
    | userData tail Huser Hresp Hlog Htail (Hu & _)].
  - eexists; split; [exact Hresp |]. simpl.
    destruct (deleteUser_replays faulty userId w) as (l' & Hl' & Hs).
    rewrite Hlog in Hl'. apply app_inv_head in Hl'. subst l'.
    rewrite Hs. apply docDeletes_keep_users, Hdocs.
  - eexists; split; [exact Hresp |]. simpl. split; [exact Huser |].
    rewrite Hu. apply users_purged.
Qed.

(** X22. Deleting again a user whose deletion was answered with success is
    answered with 404 "User not found", provided the user document can be
    read, and changes nothing. *)
Theorem deleteUser_twice (faulty faulty' : StoreOp -> option string)
        (userId : string) (w : World) (deleted : Deleted) :
  (deleteUser faulty userId w).2 = Normal (Json 200 deleted) ->
  faulty' (GetUserDoc userId) = None ->
  deleteUser faulty' userId (deleteUser faulty userId w).1
  = ((deleteUser faulty userId w).1, Normal (JsonError 404 "User not found" None)).
Proof.
  intros H200 Hread.
  destruct (deleteUser_outcome faulty userId w) as
    [l status error Hresp Hlog Hdocs Hwhy
    | userData tail Huser Hresp Hlog Htail (Hu & _)].
  - rewrite Hresp in H200. discriminate.
  - destruct (deleteUser faulty userId w) as [w1 r]. cbn [fst snd] in *.
    unfold deleteUser, stry, sbind, fetch, sret. rewrite Hread, Hu, users_purged.
    rewrite lookup_delete_eq. reflexivity.
Qed.

Section DeleteRuns.

Variable faulty : StoreOp -> option string.

Lemma issueAll_all_ok {A} (docs : list A) (mk : A -> StoreOp)
      (eff : A -> Store -> Store) (w : World) :
  promiseAll (issueAll docs (fun d => mutate faulty (mk d) (eff d)) w).2 = Normal tt ->
  forall d, d ∈ docs -> faulty (mk d) = None.
Proof.
  revert w. induction docs as [|x docs IH]; intros w H d Hd.
  - inversion Hd.
  - simpl in H. unfold mutate at 1 in H.
    destruct (faulty (mk x)) as [m|] eqn:E.
    + destruct (issueAll docs _ w) as [w2 rs]. simpl in H. discriminate.
    + specialize (IH (mkWorld (eff x (store w)) (writes w ++ [mk x]))).
      destruct (issueAll docs _ _) as [w2 rs]. simpl in *.
      apply elem_of_cons in Hd. destruct Hd as [-> | Hd]; [exact E | eauto].
Qed.

Lemma issueAll_no_fault {A} (docs : list A) (mk : A -> StoreOp)
      (eff : A -> Store -> Store) (w : World) :
  (forall d, faulty (mk d) = None) ->
  issueAll docs (fun d => mutate faulty (mk d) (eff d)) w
  = (mkWorld (foldl (fun s d => eff d s) (store w) docs) (writes w ++ (mk <$> docs)),
     (fun _ => Normal tt) <$> docs).
Proof.
  intros Hok. revert w. induction docs as [|x docs IH]; intros w; simpl.
  - rewrite app_nil_r. destruct w; reflexivity.
  - unfold mutate at 1. rewrite Hok, IH. simpl. rewrite <- app_assoc. reflexivity.
Qed.

Lemma promiseAll_resolved {A} (docs : list A) :
  promiseAll ((fun _ => Normal tt) <$> docs) = Normal tt.
Proof. induction docs as [|x docs IH]; [reflexivity | exact IH]. Qed.

(** A batch none of whose deletes fails resolves, with every document
    deleted. *)
Lemma deleteAll_resolves {A} (docs : list A) (mk : A -> StoreOp)
      (eff : A -> Store -> Store) (w : World) :
  (forall d, faulty (mk d) = None) ->
  deleteAll docs (fun d => mutate faulty (mk d) (eff d)) w
  = (mkWorld (foldl (fun s d => eff d s) (store w) docs) (writes w ++ (mk <$> docs)),
     Normal tt).
Proof.
  intros Hok. unfold deleteAll. rewrite (issueAll_no_fault docs mk eff w Hok).
  now rewrite promiseAll_resolved.
Qed.

(** A batch one of whose deletes fails rejects. *)
Lemma deleteAll_rejects {A} (docs : list A) (mk : A -> StoreOp)
      (eff : A -> Store -> Store) (w : World) (d : A) (m : string) :
  d ∈ docs -> faulty (mk d) = Some m ->
  exists m', (deleteAll docs (fun d => mutate faulty (mk d) (eff d)) w).2 = Throw m'.
Proof.
  intros Hd Hf. unfold deleteAll.
  pose proof (issueAll_all_ok docs mk eff w) as Hall.
  destruct (issueAll docs _ w) as [w' rs]. simpl in *.
  destruct (promiseAll rs) as [[]|m']; [| eauto].
  rewrite (Hall eq_refl d Hd) in Hf. discriminate.
Qed.

(** X23. A failure of the identity provider is not fatal: when the user
    document exists and no operation on the store fails, the answer is the
    success answer, whether or not the account can be deleted. If deleting
    the account fails the accounts stay as they were; if it succeeds, or
    there is no such account, the user has no account afterwards. *)
Theorem deleteUser_account_failure_not_fatal (userId : string) (w : World)
        (userData : option string) :
  users (store w) !! userId = Some userData ->
  (forall op, op <> DeleteAccount userId -> faulty op = None) ->
  (deleteUser faulty userId w).2 = Normal (Json 200 (mkDeleted userId userData))
  /\ (forall m, faulty (DeleteAccount userId) = Some m ->
        accounts (store (deleteUser faulty userId w).1) = accounts (store w))
  /\ (faulty (DeleteAccount userId) = None ->
        userId ∉ accounts (store (deleteUser faulty userId w).1)).
Proof.
  intros Huser Hok.
  remember (deleteUser faulty userId w) as run eqn:Erun.
  unfold deleteUser, stry in Erun. unfold sbind at 1 in Erun. unfold fetch at 1 in Erun.
  rewrite (Hok (GetUserDoc userId)), Huser in Erun by discriminate.
  unfold sbind at 1 in Erun. unfold fetch at 1 in Erun.
  rewrite (Hok (GetShelf userId)) in Erun by discriminate.
  unfold sbind at 1 in Erun.
  rewrite (deleteAll_resolves _ (DeleteShelfDoc userId) (removeShelfDoc userId)) in Erun
    by (intros d; apply Hok; discriminate).
  rewrite foldl_removeShelfDoc in Erun.
  unfold sbind at 1 in Erun. unfold fetch at 1 in Erun.
  rewrite (Hok (GetHistory userId)) in Erun by discriminate.
  cbn [store history] in Erun. unfold sbind at 1 in Erun.
  rewrite (deleteAll_resolves _ (DeleteHistoryDoc userId) (removeHistoryDoc userId)) in Erun
    by (intros d; apply Hok; discriminate).
  unfold sbind at 1 in Erun. unfold mutate at 1 in Erun.
  rewrite (Hok (DeleteUserDoc userId)) in Erun by discriminate.
  cbn [store writes] in Erun. rewrite foldl_removeHistoryDoc in Erun.
  unfold sbind, authDeleteUser, sret, removeUserDoc in Erun.
  cbn [store writes users shelf history accounts] in Erun.
  destruct (decide (userId ∈ accounts (store w))) as [Hin|Hout].
  - unfold mutate in Erun. destruct (faulty (DeleteAccount userId)) as [m|];
      subst run; cbn [fst snd store accounts removeAccount].
    + split; [reflexivity |]. split; [reflexivity | discriminate].
    + split; [reflexivity |]. split; [discriminate |].
      intros _ Hin'. apply elem_of_difference in Hin'.
      destruct Hin' as [_ Hn]. apply Hn, elem_of_singleton. reflexivity.
  - subst run. cbn [fst snd store accounts]. split; [reflexivity |].
    split; [reflexivity | intros _; exact Hout].
Qed.

(** X24. There is no rollback: when the user document exists, the shelf is
    emptied without a failure and then the delete of a history document
    fails, the answer is a 500 error, the user documents are what they were,
    the history document whose delete failed is still there, and the shelf
    documents of the user are gone. *)
Theorem deleteUser_no_rollback (userId d : string) (w : World)
        (userData : option string) (m : string) :
  users (store w) !! userId = Some userData ->
  is_Some (history (store w) !! (userId, d)) ->
  faulty (DeleteHistoryDoc userId d) = Some m ->
  faulty (GetUserDoc userId) = None -> faulty (GetShelf userId) = None ->
  faulty (GetHistory userId) = None ->
  (forall d', faulty (DeleteShelfDoc userId d') = None) ->
  (exists m', (deleteUser faulty userId w).2 = Normal (JsonError 500 m' None))
  /\ users (store (deleteUser faulty userId w).1) = users (store w)
  /\ history (store (deleteUser faulty userId w).1) !! (userId, d)
     = history (store w) !! (userId, d)
  /\ forall d', shelf (store (deleteUser faulty userId w).1) !! (userId, d') = None.
Proof.
  intros Huser Hd Hf H1 H2 H3 H4.
  remember (deleteUser faulty userId w) as run eqn:Erun.
  unfold deleteUser, stry in Erun. unfold sbind at 1 in Erun. unfold fetch at 1 in Erun.
  rewrite H1, Huser in Erun.
  unfold sbind at 1 in Erun. unfold fetch at 1 in Erun. rewrite H2 in Erun.
  unfold sbind at 1 in Erun.
  rewrite (deleteAll_resolves _ (DeleteShelfDoc userId) (removeShelfDoc userId)) in Erun
    by exact H4.
  rewrite foldl_removeShelfDoc in Erun.
  unfold sbind at 1 in Erun. unfold fetch at 1 in Erun. rewrite H3 in Erun.
  cbn [store history] in Erun. unfold sbind at 1 in Erun.
  match type of Erun with
  | context [deleteAll ?docs ?del ?w0] =>
      pose proof (deleteAll_rejects docs (DeleteHistoryDoc userId)
                    (removeHistoryDoc userId) w0 d m
                    (proj2 (elem_of_docIdsOf userId d (history (store w))) Hd) Hf)
        as [m' Hrej];
      assert (Hrel : historyOnly w0 (deleteAll docs del w0).1
                     /\ history (store (deleteAll docs del w0).1) !! (userId, d)
                        = history (store w0) !! (userId, d));
      [| destruct (deleteAll docs del w0) as [w2 r] ]
  end.
  { apply (keeps_deleteAll
             (fun w1 w2 => historyOnly w1 w2
                /\ history (store w2) !! (userId, d)
                   = history (store w1) !! (userId, d))).
    - intros w1. repeat split.
    - intros w1 w2' w3 [(A1 & A2 & A3) A4] [(B1 & B2 & B3) B4].
      repeat split; congruence.
    - intros d'. apply keeps_mutate.
      + intros w1. repeat split.
      + intros Hnone w1. simpl. repeat split.
        apply lookup_delete_ne. intros Heq. inversion Heq; subst. congruence. }
  cbn [fst snd] in *. subst r. unfold sret in Erun. subst run. cbn [fst snd].
  destruct Hrel as [(A1 & A2 & A3) A4]. cbn [store users shelf history] in *.
  split; [eauto |]. rewrite A1, A2, A4. repeat split.
  intros d'. rewrite lookup_foldl_delete.
  destruct (decide _) as [_|Hn]; [reflexivity |].
  destruct (shelf (store w) !! (userId, d')) eqn:E; [| reflexivity].
  exfalso. apply Hn. split; [reflexivity |]. apply elem_of_docIdsOf. eauto.
Qed.

End DeleteRuns.


Lemma listItems_items_witness :
  exists items item,
    listItems "u1" (Normal demoDocs) = Json 200 (mkItemsBody "u1" 2 items)
    /\ items !! 1%nat = Some item
    /\ item !! "id" = Some (VNumber 7).
Proof.
  destruct (listItems_items "u1" demoDocs) as (items & H1 & H2 & H3).
  destruct (H3 1%nat _ eq_refl) as (item & Hi & Hid & _).
  exists items, item. split; [exact H1 |]. split; [exact Hi |]. exact Hid.
Defined.

Lemma deleteUser_twice_witness :
  deleteUser noFaults "u1" (deleteUser noFaults "u1" (mkWorld demoStore [])).1
  = ((deleteUser noFaults "u1" (mkWorld demoStore [])).1,
     Normal (JsonError 404 "User not found" None)).
Proof.
  apply (deleteUser_twice noFaults noFaults "u1" (mkWorld demoStore [])
           (mkDeleted "u1" (Some "ana@example.com"))).
  - vm_compute. reflexivity.
  - reflexivity.
Defined.

Lemma deleteUser_account_failure_not_fatal_witness :
  (deleteUser accountDeleteFails "u1" (mkWorld demoStore [])).2
    = Normal (Json 200 (mkDeleted "u1" (Some "ana@example.com")))
  /\ accounts (store (deleteUser accountDeleteFails "u1" (mkWorld demoStore [])).1)
     = accounts demoStore.
Proof.
  destruct (deleteUser_account_failure_not_fatal accountDeleteFails "u1"
              (mkWorld demoStore []) (Some "ana@example.com")) as (H1 & H2 & _).
  - vm_compute. reflexivity.
  - intros op Hop. destruct op; try reflexivity. simpl.
    destruct (String.eqb_spec userId "u1") as [-> | _]; [contradiction | reflexivity].
  - split; [exact H1 |]. apply (H2 "auth/internal-error"). reflexivity.
Defined.

Lemma deleteUser_no_rollback_witness :
  (exists m', (deleteUser historyDeleteFails "u1" (mkWorld demoStore [])).2
              = Normal (JsonError 500 m' None))
  /\ users (store (deleteUser historyDeleteFails "u1" (mkWorld demoStore [])).1)
     = users demoStore.
Proof.
  destruct (deleteUser_no_rollback historyDeleteFails "u1" "h1" (mkWorld demoStore [])
              (Some "ana@example.com") "UNAVAILABLE") as (H1 & H2 & _).
  - vm_compute. reflexivity.
  - vm_compute. eexists. reflexivity.
  - reflexivity.
  - reflexivity.
  - reflexivity.
  - reflexivity.
  - intros d'. reflexivity.
  - split; [exact H1 | exact H2].
Defined.

Lemma deleteUser_other_users_witness :
  shelf (store (deleteUser noFaults "u1" (mkWorld demoStore [])).1) !! ("u2", "d9")
  = shelf demoStore !! ("u2", "d9").
Proof.
  destruct (deleteUser_other_users noFaults "u1" (mkWorld demoStore []))
    as (_ & Hshelf & _).
  - reflexivity.
  - apply (Hshelf "u2" "d9"). discriminate.
Defined.
